(** * PrismaPilot: query-shaping helpers, embedded and verified

    A shallow embedding of the pagination calculator ([pagination.ts]),
    the search builder ([search.ts]), the filter builder ([filters.ts])
    and the orchestrators of [query-builder.ts] (the revision that takes
    [relationFilters] and [cursorField]), followed by the properties the
    specification states about them.

    Conventions of the embedding.
    - A JavaScript [number] is [NaN], an infinity or an integer; integer
      arithmetic is exact, as it is on doubles below 2^53.  Fractions and
      the sign of zero are not represented.
    - A string is a sequence of code units below 256.
    - A plain object, as a literal or [JSON.parse] makes it, is the
      finite map from the names of its own properties to their values
      ([gmap string value]).  An optional parameter is an [option], an
      optional property of type [any] is a value that may be
      [VUndefined].
    - A [Date] is represented by the value it was constructed from.
    - A call into the data-access layer returns a promise that is settled
      either way; every call is recorded in a log. *)

From Stdlib Require Import ZArith Ascii String.
From stdpp Require Import gmap strings list fin_maps pretty.

Set Warnings "-register-all".

Local Open Scope string_scope.
Local Open Scope Z_scope.

(** ** Numbers *)

Inductive number :=
| NaN
| NegInf
| Fin (z : Z)
| PosInf.

(** [a <= b]; false as soon as one side is [NaN]. *)
Definition num_leb (a b : number) : bool :=
  match a, b with
  | NaN, _ | _, NaN => false
  | NegInf, _ => true
  | _, PosInf => true
  | Fin x, Fin y => x <=? y
  | _, _ => false
  end.

(** [a > b]. *)
Definition num_gtb (a b : number) : bool :=
  match a, b with
  | NaN, _ | _, NaN => false
  | _, _ => negb (num_leb a b)
  end.

Definition Math_max (a b : number) : number :=
  match a, b with
  | NaN, _ | _, NaN => NaN
  | _, _ => if num_leb a b then b else a
  end.

Definition Math_min (a b : number) : number :=
  match a, b with
  | NaN, _ | _, NaN => NaN
  | _, _ => if num_leb a b then a else b
  end.

Definition num_add (a b : number) : number :=
  match a, b with
  | NaN, _ | _, NaN => NaN
  | Fin x, Fin y => Fin (x + y)
  | PosInf, NegInf | NegInf, PosInf => NaN
  | PosInf, _ | _, PosInf => PosInf
  | NegInf, _ | _, NegInf => NegInf
  end.

Definition num_neg (a : number) : number :=
  match a with
  | NaN => NaN
  | NegInf => PosInf
  | Fin x => Fin (- x)
  | PosInf => NegInf
  end.

Definition num_sub (a b : number) : number := num_add a (num_neg b).

(** The sign of a number that is not [NaN]: -1, 0 or 1. *)
Definition num_sgn (a : number) : Z :=
  match a with
  | NaN => 0
  | NegInf => -1
  | Fin x => Z.sgn x
  | PosInf => 1
  end.

Definition inf_of_sgn (s : Z) : number :=
  if s =? 0 then NaN else if 0 <? s then PosInf else NegInf.

Definition num_mul (a b : number) : number :=
  match a, b with
  | NaN, _ | _, NaN => NaN
  | Fin x, Fin y => Fin (x * y)
  | _, _ => inf_of_sgn (num_sgn a * num_sgn b)
  end.

(** [Math.ceil(a / b)]. *)
Definition Math_ceil_div (a b : number) : number :=
  match a, b with
  | NaN, _ | _, NaN => NaN
  | Fin x, Fin y =>
      if y =? 0 then inf_of_sgn (Z.sgn x) else Fin (- ((- x) / y))
  | Fin _, _ => Fin 0
  | _, Fin y => inf_of_sgn (num_sgn a * (if y <? 0 then -1 else 1))
  | _, _ => NaN
  end.

(** ** Strings *)

(** White space as [String.prototype.trim] sees it, among the code units
    below 256: TAB, LF, VT, FF, CR, SPACE and NBSP. *)
Definition is_white_space (a : ascii) : bool :=
  let n := nat_of_ascii a in
  ((9 <=? n)%nat && (n <=? 13)%nat) || (n =? 32)%nat || (n =? 160)%nat.

Definition is_empty_string (s : string) : bool :=
  match s with
  | EmptyString => true
  | String _ _ => false
  end.

Fixpoint trimStart (s : string) : string :=
  match s with
  | EmptyString => EmptyString
  | String a s' => if is_white_space a then trimStart s' else s
  end.

Fixpoint trimEnd (s : string) : string :=
  match s with
  | EmptyString => EmptyString
  | String a s' =>
      let t := trimEnd s' in
      if is_white_space a && is_empty_string t then EmptyString
      else String a t
  end.

Definition trim (s : string) : string := trimEnd (trimStart s).

Fixpoint all_white_space (s : string) : bool :=
  match s with
  | EmptyString => true
  | String a s' => is_white_space a && all_white_space s'
  end.

(** ** Values *)

Inductive value :=
| VUndefined
| VNull
| VBool (b : bool)
| VNum (n : number)
| VStr (s : string)
| VDate (src : value)
| VArr (l : list value)
| VObj (o : gmap string value).

Abbreviation obj := (gmap string value).

(** [new Date(v)]: building a date from a date copies it. *)
Definition newDate (v : value) : value :=
  match v with
  | VDate src => VDate src
  | _ => VDate v
  end.

Definition truthy (v : value) : bool :=
  match v with
  | VUndefined | VNull => false
  | VBool b => b
  | VNum NaN => false
  | VNum (Fin z) => negb (z =? 0)
  | VNum _ => true
  | VStr s => negb (is_empty_string s)
  | VDate _ | VArr _ | VObj _ => true
  end.

Inductive jstype := TUndefined | TObject | TBoolean | TNumber | TString.

Definition typeof (v : value) : jstype :=
  match v with
  | VUndefined => TUndefined
  | VNull | VDate _ | VArr _ | VObj _ => TObject
  | VBool _ => TBoolean
  | VNum _ => TNumber
  | VStr _ => TString
  end.

Definition jstype_eqb (a b : jstype) : bool :=
  match a, b with
  | TUndefined, TUndefined | TObject, TObject | TBoolean, TBoolean
  | TNumber, TNumber | TString, TString => true
  | _, _ => false
  end.

Definition is_undefined (v : value) : bool :=
  match v with VUndefined => true | _ => false end.

Definition is_null (v : value) : bool :=
  match v with VNull => true | _ => false end.

Definition Array_isArray (v : value) : bool :=
  match v with VArr _ => true | _ => false end.

Definition instanceof_Date (v : value) : bool :=
  match v with VDate _ => true | _ => false end.

(** [k in v], for the names this code asks about ([from], [to]): only a
    plain object can have them. *)
Definition has_prop (k : string) (v : value) : bool :=
  match v with
  | VObj o => bool_decide (is_Some (o !! k))
  | _ => false
  end.

(** [v.k]: a missing property reads as [undefined]. *)
Definition get_prop (k : string) (v : value) : value :=
  match v with
  | VObj o => default VUndefined (o !! k)
  | _ => VUndefined
  end.

(** [o[k]] on a plain object. *)
Definition obj_get (o : obj) (k : string) : value :=
  default VUndefined (o !! k).

Definition Object_keys (o : obj) : list string := (map_to_list o).*1.

(** [{...a, ...b}]: the properties of [b] win. *)
Definition spread2 (a b : obj) : obj := b ∪ a.

(** What [...v] contributes inside an object literal, for the values
    this code spreads: a plain object gives its properties; [undefined],
    [null], booleans, numbers and the empty string give nothing. *)
Definition spread_props (v : value) : obj :=
  match v with
  | VObj o => o
  | _ => ∅
  end.

(** [a && b]. *)
Definition js_and (a b : value) : value := if truthy a then b else a.

(** [String(v)].  How a date prints depends on the host and its time
    zone, so that rendering is a parameter. *)
Section ToString.
Variable Date_toString : value -> string.

Definition number_to_string (n : number) : string :=
  match n with
  | NaN => "NaN"
  | NegInf => "-Infinity"
  | Fin z => pretty z
  | PosInf => "Infinity"
  end.

Fixpoint js_String (v : value) : string :=
  match v with
  | VUndefined => "undefined"
  | VNull => "null"
  | VBool true => "true"
  | VBool false => "false"
  | VNum n => number_to_string n
  | VStr s => s
  | VDate src => Date_toString src
  | VArr l =>
      String.concat ","
        (map (fun x =>
                match x with
                | VUndefined | VNull => ""
                | _ => js_String x
                end) l)
  | VObj _ => "[object Object]"
  end.
End ToString.

(** ** pagination.ts *)

Definition DEFAULT_LIMIT : number := Fin 10.
Definition MAX_LIMIT : number := Fin 100.

Record OffsetPagination := { take_ : number; skip_ : number }.

(** [getPagination({ page = 1, limit = DEFAULT_LIMIT })] *)
Definition getPagination (page limit : option number) : OffsetPagination :=
  let page := default (Fin 1) page in
  let limit := default DEFAULT_LIMIT limit in
  let safePage := Math_max (Fin 1) page in
  let take := Math_min (Math_max (Fin 1) limit) MAX_LIMIT in
  let skip := num_mul (num_sub safePage (Fin 1)) take in
  {| take_ := take; skip_ := skip |}.

(** [getCursorPagination({ cursor, cursorField = "id", limit = DEFAULT_LIMIT })].
    The result is the object that the caller spreads into its query. *)
Definition getCursorPagination
    (cursor cursorField : option string) (limit : option number) : obj :=
  let cursorField := default "id" cursorField in
  let limit := default DEFAULT_LIMIT limit in
  let take := Math_min (Math_max (Fin 1) limit) MAX_LIMIT in
  let cursor := from_option VStr VUndefined cursor in
  spread2 {[ "take" := VNum (num_add take (Fin 1)) ]}
    (spread_props
       (js_and cursor
          (VObj {[ "skip" := VNum (Fin 1);
                   "cursor" := VObj {[ cursorField := cursor ]} ]}))).

Definition calculateTotalPages (total limit : number) : number :=
  Math_ceil_div total limit.

(** [results.slice(0, limit)] *)
Definition slice0 {A} (results : list A) (limit : number) : list A :=
  match limit with
  | NaN | NegInf => []
  | Fin z =>
      if z <? 0 then take (Z.to_nat (Z.of_nat (length results) + z)) results
      else take (Z.to_nat z) results
  | PosInf => results
  end.

Record CursorResults := {
  cr_data : list obj;
  cr_hasMore : bool;
  cr_nextCursor : option string
}.

Section ProcessCursorResults.
Variable Date_toString : value -> string.

(** [processCursorResults(results, limit, cursorField = "id")];
    a [nextCursor] of [null] is [None].  The array [data] is truthy,
    so [hasMore && data && data.length > 0] has two tests left. *)
Definition processCursorResults
    (results : list obj) (limit : number) (cursorField : option string)
  : CursorResults :=
  let cursorField := default "id" cursorField in
  let hasMore := num_gtb (Fin (Z.of_nat (length results))) limit in
  let data := if hasMore then slice0 results limit else results in
  let nextCursor :=
    if hasMore && (0 <? Z.of_nat (length data)) then
      match last data with
      | Some lastItem =>
          if truthy (VObj lastItem) then
            let cursorValue := obj_get lastItem cursorField in
            if negb (is_undefined cursorValue)
            then Some (js_String Date_toString cursorValue)
            else None
          else None
      | None => None
      end
    else None in
  {| cr_data := data; cr_hasMore := hasMore; cr_nextCursor := nextCursor |}.
End ProcessCursorResults.

(** ** search.ts *)

(** The condition on one field: [{ [field]: { contains, mode } }]. *)
Definition containsCondition (trimmedSearch field : string) : value :=
  VObj {[ field := VObj {[ "contains" := VStr trimmedSearch;
                           "mode" := VStr "insensitive" ]} ]}.

(** [buildSearchQuery(search?, fields = [])]; [undefined] is [None].
    [!search] holds of a missing and of an empty term.  [fields] has the
    declared type [string[]], for which [Array.isArray] holds, so that
    test of the source is not repeated. *)
Definition buildSearchQuery
    (search : option string) (fields : option (list string)) : option obj :=
  let fields := default [] fields in
  match search with
  | None => None
  | Some search =>
      if is_empty_string search
         || is_empty_string (trim search)
         || (Z.of_nat (length fields) =? 0)
      then None
      else
        let trimmedSearch := trim search in
        Some {[ "OR" := VArr (map (containsCondition trimmedSearch) fields) ]}
  end.

(** ** filters.ts *)

(** [buildDateRangeFilter(range)] *)
Definition buildDateRangeFilter (range : value) : value :=
  let filter : obj := ∅ in
  let filter :=
    if truthy (get_prop "from" range)
    then <[ "gte" := newDate (get_prop "from" range) ]> filter
    else filter in
  let filter :=
    if truthy (get_prop "to" range)
    then <[ "lte" := newDate (get_prop "to" range) ]> filter
    else filter in
  VObj filter.

(** [buildNumberRangeFilter(range)] *)
Definition buildNumberRangeFilter (range : value) : value :=
  let filter : obj := ∅ in
  let filter :=
    if negb (is_undefined (get_prop "from" range))
    then <[ "gte" := get_prop "from" range ]> filter
    else filter in
  let filter :=
    if negb (is_undefined (get_prop "to" range))
    then <[ "lte" := get_prop "to" range ]> filter
    else filter in
  VObj filter.

Definition isDateLike (candidate : value) : bool :=
  instanceof_Date candidate || jstype_eqb (typeof candidate) TString.

Definition isDateRangeFilter (value : value) : bool :=
  if negb (jstype_eqb (typeof value) TObject)
     || is_null value
     || Array_isArray value
     || (negb (has_prop "from" value) && negb (has_prop "to" value))
  then false
  else
    let from := get_prop "from" value in
    let to := get_prop "to" value in
    (negb (is_undefined from) && isDateLike from)
    || (negb (is_undefined to) && isDateLike to).

Definition isNumberRangeFilter (value : value) : bool :=
  jstype_eqb (typeof value) TObject
  && negb (is_null value)
  && (has_prop "from" value || has_prop "to" value)
  && negb (Array_isArray value)
  && (jstype_eqb (typeof (get_prop "from" value)) TNumber
      || jstype_eqb (typeof (get_prop "to" value)) TNumber).

(** [value === ""] *)
Definition is_empty_string_value (v : value) : bool :=
  match v with
  | VStr s => is_empty_string s
  | _ => false
  end.

Definition array_length (v : value) : Z :=
  match v with
  | VArr l => Z.of_nat (length l)
  | _ => 0
  end.

(** [o[key] = v], for an object [o] that the code has made with [{}].
    Under every name but [__proto__] the assignment sets the own
    property [key].  [__proto__] is an accessor that [o] inherits from
    [Object.prototype]: the assignment runs its setter, which adds no
    property to [o]; it does nothing when [v] is a primitive and makes
    [v] the prototype of [o] when [v] is an object.  The map holds the
    own properties of [o], which are therefore left as they were. *)
Definition obj_set (o : obj) (key : string) (v : value) : obj :=
  if bool_decide (key = "__proto__") then o else <[ key := v ]> o.

(** One turn of the loop of [buildFilters]: what the entry [key], [value]
    does to [where]. *)
Definition buildFilters_step (key : string) (value : value) (where_ : obj) : obj :=
  if is_undefined value || is_null value || is_empty_string_value value
  then where_
  else if isNumberRangeFilter value
  then obj_set where_ key (buildNumberRangeFilter value)
  else if isDateRangeFilter value
  then obj_set where_ key (buildDateRangeFilter value)
  else if Array_isArray value
  then (if 0 <? array_length value
        then obj_set where_ key (VObj {[ "in" := value ]})
        else where_)
  else if jstype_eqb (typeof value) TBoolean
  then obj_set where_ key value
  else obj_set where_ key value.

(** [buildFilters(filters)]: the loop [for (const key in filters)],
    starting from the empty [where]; the result is given by its own
    properties. *)
Definition buildFilters (filters : obj) : obj :=
  map_fold buildFilters_step ∅ filters.

(** The properties [for ... in] enumerates on a truthy value of type
    object: those of a plain object, the indices of an array, none of
    a date. *)
Definition enumerable_props (v : value) : obj :=
  match v with
  | VObj o => o
  | VArr l => list_to_map (imap (fun i x => (pretty i, x)) l)
  | _ => ∅
  end.

Definition buildRelationFilters_step
    (relation : string) (conditions : value) (where_ : obj) : obj :=
  if truthy conditions && jstype_eqb (typeof conditions) TObject
  then obj_set where_ relation (VObj (buildFilters (enumerable_props conditions)))
  else where_.

(** [buildRelationFilters(relationFilters)] *)
Definition buildRelationFilters (relationFilters : obj) : obj :=
  map_fold buildRelationFilters_step ∅ relationFilters.

(** [buildNotFilters(notFilters)]; [undefined] is [None]. *)
Definition buildNotFilters (notFilters : obj) : option obj :=
  let filters := buildFilters notFilters in
  if Z.of_nat (length (Object_keys filters)) =? 0 then None
  else Some {[ "NOT" := VObj filters ]}.

(** [combineFilters(...filterObjects)]: a left-to-right [reduce] from
    the empty object. *)
Definition combineFilters (filterObjects : list obj) : obj :=
  foldl (fun combined current => spread2 combined current) ∅ filterObjects.

(** [combineFiltersWithOr(...filterObjects)] *)
Definition combineFiltersWithOr (filterObjects : list obj) : value :=
  let validFilters :=
    List.filter (fun filter => 0 <? Z.of_nat (length (Object_keys filter)))
      filterObjects in
  if Z.of_nat (length validFilters) =? 0 then VUndefined
  else if Z.of_nat (length validFilters) =? 1
  then from_option VObj VUndefined (validFilters !! 0%nat)
  else VObj {[ "OR" := VArr (VObj <$> validFilters) ]}.

(** ** The data-access layer *)

(** A settled promise: its value or the reason it was rejected with
    (any value can be thrown), and the instant it settled at. *)
Inductive settled (A : Type) :=
| Fulfilled (a : A)
| Rejected (e : value).
Arguments Fulfilled {A} a.
Arguments Rejected {A} e.

Record promise (A : Type) := {
  settles_at : nat;
  outcome : settled A
}.
Arguments settles_at {A} p.
Arguments outcome {A} p.

(** [Promise.all([p, q])]: fulfilled when both are, rejected with the
    reason of the first promise to be rejected. *)
Definition Promise_all2 {A B} (p : promise A) (q : promise B) : promise (A * B) :=
  match outcome p, outcome q with
  | Fulfilled a, Fulfilled b =>
      {| settles_at := Nat.max (settles_at p) (settles_at q);
         outcome := Fulfilled (a, b) |}
  | Rejected e, Fulfilled _ =>
      {| settles_at := settles_at p; outcome := Rejected e |}
  | Fulfilled _, Rejected e =>
      {| settles_at := settles_at q; outcome := Rejected e |}
  | Rejected e1, Rejected e2 =>
      if (settles_at p <=? settles_at q)%nat
      then {| settles_at := settles_at p; outcome := Rejected e1 |}
      else {| settles_at := settles_at q; outcome := Rejected e2 |}
  end.

(** The model delegate ([prisma.user], [prisma.order], ...). *)
Record Model := {
  findMany : obj -> promise (list obj);
  count : obj -> promise number;
  aggregate : obj -> promise value
}.

Inductive operation := OpFindMany | OpCount | OpAggregate.

(** An entry of the log: the operation called and its argument. *)
Record call := {
  call_op : operation;
  call_args : obj
}.

(** An [async] function body: it extends the log of calls made so far
    and ends fulfilled or rejected.  There is no handler: a rejection
    ends the body. *)
Definition Async (A : Type) : Type := list call -> list call * settled A.

Definition async_ret {A} (a : A) : Async A := fun log => (log, Fulfilled a).

Definition async_bind {A B} (m : Async A) (k : A -> Async B) : Async B :=
  fun log =>
    match m log with
    | (log', Fulfilled a) => k a log'
    | (log', Rejected e) => (log', Rejected e)
    end.

Notation "'let*' x ':=' m 'in' k" := (async_bind m (fun x => k))
  (at level 10, x name, m at level 100, k at level 200, only parsing).

(** [await p] *)
Definition await {A} (p : promise A) : Async A := fun log => (log, outcome p).

Definition call_findMany (model : Model) (args : obj) : Async (promise (list obj)) :=
  fun log =>
    ((log ++ [{| call_op := OpFindMany; call_args := args |}])%list,
     Fulfilled (findMany model args)).

Definition call_count (model : Model) (args : obj) : Async (promise number) :=
  fun log =>
    ((log ++ [{| call_op := OpCount; call_args := args |}])%list,
     Fulfilled (count model args)).

Definition call_aggregate (model : Model) (args : obj) : Async (promise value) :=
  fun log =>
    ((log ++ [{| call_op := OpAggregate; call_args := args |}])%list,
     Fulfilled (aggregate model args)).

(** Running a body from an empty log. *)
Definition run {A} (m : Async A) : list call * settled A := m [].

(** ** query-builder.ts *)

Inductive SortOrder := asc | desc.

Definition sortOrder_value (o : SortOrder) : value :=
  match o with
  | asc => VStr "asc"
  | desc => VStr "desc"
  end.

Record SortField := { field : string; order : SortOrder }.

(** The options object of the orchestrators.  Each of them reads the
    properties it destructures and ignores the others. *)
Record QueryArgs := {
  page : option number;
  limit : option number;
  cursor : option string;
  cursorField : option string;
  search : option string;
  searchFields : option (list string);
  filters : option obj;
  relationFilters : option obj;
  sortBy : option string;
  sortOrder : option SortOrder;
  sortFields : option (list SortField);
  include : value;
  select : value;
  aggregations : obj
}.

Record OffsetMeta := {
  meta_total : number;
  meta_page : number;
  meta_limit : number;
  meta_totalPages : number
}.

Record QueryBuilderResponse := {
  qb_data : list obj;
  qb_meta : OffsetMeta
}.

Record CursorMeta := {
  meta_nextCursor : option string;
  meta_hasMore : bool;
  meta_cursorLimit : number
}.

Record CursorQueryBuilderResponse := {
  cqb_data : list obj;
  cqb_meta : CursorMeta
}.

(** [...(v && { [name]: v })] *)
Definition optional_prop (name : string) (v : value) : obj :=
  spread_props (js_and v (VObj {[ name := v ]})).

(** [sortBy || cursorField] *)
Definition string_or (a : option string) (b : string) : string :=
  match a with
  | Some s => if is_empty_string s then b else s
  | None => b
  end.

(** The [where] every orchestrator assembles. *)
Definition build_where (args : QueryArgs) : obj :=
  let searchFields := default [] (searchFields args) in
  let filters := default ∅ (filters args) in
  let relationFilters := default ∅ (relationFilters args) in
  let searchQuery := buildSearchQuery (search args) (Some searchFields) in
  let filterQuery := buildFilters filters in
  let relationQuery := buildRelationFilters relationFilters in
  combineFilters [default ∅ searchQuery; filterQuery; relationQuery].

Definition queryBuilder (model : Model) (args : QueryArgs)
  : Async QueryBuilderResponse :=
  let page := default (Fin 1) (page args) in
  let limit := default (Fin 10) (limit args) in
  let sortBy := default "createdAt" (sortBy args) in
  let sortOrder := default desc (sortOrder args) in
  let pg := getPagination (Some page) (Some limit) in
  let take := take_ pg in
  let skip := skip_ pg in
  let where_ := build_where args in
  let* p1 := call_findMany model
          (spread2
             (spread2
                {[ "where" := VObj where_;
                   "take" := VNum take;
                   "skip" := VNum skip;
                   "orderBy" := VObj {[ sortBy := sortOrder_value sortOrder ]} ]}
                (optional_prop "include" (include args)))
             (optional_prop "select" (select args))) in
  let* p2 := call_count model {[ "where" := VObj where_ ]} in
  let* both := await (Promise_all2 p1 p2) in
  let '(data, total) := both in
  async_ret
    {| qb_data := data;
       qb_meta := {| meta_total := total;
                     meta_page := page;
                     meta_limit := take;
                     meta_totalPages := Math_ceil_div total take |} |}.

Definition advancedQueryBuilder (model : Model) (args : QueryArgs)
  : Async QueryBuilderResponse :=
  let page := default (Fin 1) (page args) in
  let limit := default (Fin 10) (limit args) in
  let sortFields :=
    default [{| field := "createdAt"; order := desc |}] (sortFields args) in
  let pg := getPagination (Some page) (Some limit) in
  let take := take_ pg in
  let skip := skip_ pg in
  let where_ := build_where args in
  let orderBy :=
    map (fun sort => VObj {[ field sort := sortOrder_value (order sort) ]})
      sortFields in
  let* p1 := call_findMany model
          (spread2
             (spread2
                {[ "where" := VObj where_;
                   "take" := VNum take;
                   "skip" := VNum skip;
                   "orderBy" := VArr orderBy ]}
                (optional_prop "include" (include args)))
             (optional_prop "select" (select args))) in
  let* p2 := call_count model {[ "where" := VObj where_ ]} in
  let* both := await (Promise_all2 p1 p2) in
  let '(data, total) := both in
  async_ret
    {| qb_data := data;
       qb_meta := {| meta_total := total;
                     meta_page := page;
                     meta_limit := take;
                     meta_totalPages := Math_ceil_div total take |} |}.

Definition countQuery (model : Model) (args : QueryArgs) : Async number :=
  let where_ := build_where args in
  let* p := call_count model {[ "where" := VObj where_ ]} in
  await p.

Definition aggregateQuery (model : Model) (args : QueryArgs) : Async value :=
  let where_ := build_where args in
  let* p := call_aggregate model
         (spread2 {[ "where" := VObj where_ ]} (aggregations args)) in
  await p.

Section CursorQueryBuilder.
Variable Date_toString : value -> string.

Definition cursorQueryBuilder (model : Model) (args : QueryArgs)
  : Async CursorQueryBuilderResponse :=
  let limit := default (Fin 10) (limit args) in
  let sortOrder := default desc (sortOrder args) in
  let cursorField := default "id" (cursorField args) in
  let effectiveSortBy := string_or (sortBy args) cursorField in
  let cursorPagination :=
    getCursorPagination (cursor args) (Some cursorField) (Some limit) in
  let where_ := build_where args in
  let* p := call_findMany model
         (spread2
            (spread2
               (spread2
                  (spread2 {[ "where" := VObj where_ ]} cursorPagination)
                  {[ "orderBy" :=
                       if String.eqb effectiveSortBy cursorField
                       then VObj {[ effectiveSortBy := sortOrder_value sortOrder ]}
                       else VArr
                              [ VObj {[ effectiveSortBy := sortOrder_value sortOrder ]};
                                VObj {[ cursorField := sortOrder_value sortOrder ]} ] ]})
               (optional_prop "include" (include args)))
            (optional_prop "select" (select args))) in
  let* results := await p in
  let r := processCursorResults Date_toString results limit (Some cursorField) in
  async_ret
    {| cqb_data := cr_data r;
       cqb_meta := {| meta_nextCursor := cr_nextCursor r;
                      meta_hasMore := cr_hasMore r;
                      meta_cursorLimit := limit |} |}.
End CursorQueryBuilder.

(** ** search.ts, the other builders *)

(** An entry of [fieldConfigs]: [{ field, relation? }]. *)
Record FieldConfig := {
  cfg_field : string;
  cfg_relation : option string
}.

(** The condition [buildNestedSearchQuery] makes of one entry.
    [config.relation] is tested by truthiness. *)
Definition nestedCondition (trimmedSearch : string) (config : FieldConfig) : value :=
  if truthy (from_option VStr VUndefined (cfg_relation config))
  then
    VObj {[ default "" (cfg_relation config) :=
              VObj {[ cfg_field config :=
                        VObj {[ "contains" := VStr trimmedSearch;
                                "mode" := VStr "insensitive" ]} ]} ]}
  else
    VObj {[ cfg_field config :=
              VObj {[ "contains" := VStr trimmedSearch;
                      "mode" := VStr "insensitive" ]} ]}.

(** [buildNestedSearchQuery(search?, fieldConfigs = [])]; as for
    [buildSearchQuery], [Array.isArray] holds of the declared type. *)
Definition buildNestedSearchQuery
    (search : option string) (fieldConfigs : option (list FieldConfig))
  : option obj :=
  let fieldConfigs := default [] fieldConfigs in
  match search with
  | None => None
  | Some search =>
      if is_empty_string search
         || is_empty_string (trim search)
         || (Z.of_nat (length fieldConfigs) =? 0)
      then None
      else
        let trimmedSearch := trim search in
        Some {[ "OR" := VArr (map (nestedCondition trimmedSearch) fieldConfigs) ]}
  end.

(** [buildExactSearch(value?, field?)] *)
Definition buildExactSearch (value field : option string) : option obj :=
  if negb (truthy (from_option VStr VUndefined value))
     || negb (truthy (from_option VStr VUndefined field))
  then None
  else Some {[ default "" field := from_option VStr VUndefined value ]}.

(** [buildPrefixSearch(prefix?, fields = [])] *)
Definition buildPrefixSearch
    (prefix : option string) (fields : option (list string)) : option obj :=
  let fields := default [] fields in
  match prefix with
  | None => None
  | Some prefix =>
      if is_empty_string prefix
         || is_empty_string (trim prefix)
         || (Z.of_nat (length fields) =? 0)
      then None
      else
        let trimmedPrefix := trim prefix in
        Some {[ "OR" :=
                  VArr (map (fun field =>
                               VObj {[ field :=
                                         VObj {[ "startsWith" := VStr trimmedPrefix;
                                                 "mode" := VStr "insensitive" ]} ]})
                          fields) ]}
  end.

(** ** filters.examples.ts *)

(** [buildRoleBasedFilters(role?, userId?)] *)
Definition buildRoleBasedFilters (role userId : option string) : obj :=
  let filters : obj := ∅ in
  if bool_decide (role = Some "ADMIN") then filters
  else
    let filters :=
      if bool_decide (role = Some "USER")
         && truthy (from_option VStr VUndefined userId)
      then <[ "userId" := from_option VStr VUndefined userId ]> filters
      else filters in
    let filters :=
      if bool_decide (role = Some "GUEST")
      then <[ "isActive" := VBool true ]> filters
      else filters in
    filters.

(** ** query-builder.ts, the copy without relation filters

    The repository also holds the orchestrators as they were before
    [relationFilters] and [cursorField] were added.  They read the same
    options; the two new ones are ignored. *)
Module Legacy.

(** The [where] assembled from the search and the filters alone. *)
Definition build_where (args : QueryArgs) : obj :=
  let searchFields := default [] (searchFields args) in
  let filters := default ∅ (filters args) in
  let searchQuery := buildSearchQuery (search args) (Some searchFields) in
  let filterQuery := buildFilters filters in
  combineFilters [default ∅ searchQuery; filterQuery].

Definition queryBuilder (model : Model) (args : QueryArgs)
  : Async QueryBuilderResponse :=
  let page := default (Fin 1) (page args) in
  let limit := default (Fin 10) (limit args) in
  let sortBy := default "createdAt" (sortBy args) in
  let sortOrder := default desc (sortOrder args) in
  let pg := getPagination (Some page) (Some limit) in
  let take := take_ pg in
  let skip := skip_ pg in
  let where_ := build_where args in
  let* p1 := call_findMany model
          (spread2
             (spread2
                {[ "where" := VObj where_;
                   "take" := VNum take;
                   "skip" := VNum skip;
                   "orderBy" := VObj {[ sortBy := sortOrder_value sortOrder ]} ]}
                (optional_prop "include" (include args)))
             (optional_prop "select" (select args))) in
  let* p2 := call_count model {[ "where" := VObj where_ ]} in
  let* both := await (Promise_all2 p1 p2) in
  let '(data, total) := both in
  async_ret
    {| qb_data := data;
       qb_meta := {| meta_total := total;
                     meta_page := page;
                     meta_limit := take;
                     meta_totalPages := Math_ceil_div total take |} |}.

Definition advancedQueryBuilder (model : Model) (args : QueryArgs)
  : Async QueryBuilderResponse :=
  let page := default (Fin 1) (page args) in
  let limit := default (Fin 10) (limit args) in
  let sortFields :=
    default [{| field := "createdAt"; order := desc |}] (sortFields args) in
  let pg := getPagination (Some page) (Some limit) in
  let take := take_ pg in
  let skip := skip_ pg in
  let where_ := build_where args in
  let orderBy :=
    map (fun sort => VObj {[ field sort := sortOrder_value (order sort) ]})
      sortFields in
  let* p1 := call_findMany model
          (spread2
             (spread2
                {[ "where" := VObj where_;
                   "take" := VNum take;
                   "skip" := VNum skip;
                   "orderBy" := VArr orderBy ]}
                (optional_prop "include" (include args)))
             (optional_prop "select" (select args))) in
  let* p2 := call_count model {[ "where" := VObj where_ ]} in
  let* both := await (Promise_all2 p1 p2) in
  let '(data, total) := both in
  async_ret
    {| qb_data := data;
       qb_meta := {| meta_total := total;
                     meta_page := page;
                     meta_limit := take;
                     meta_totalPages := Math_ceil_div total take |} |}.

Definition countQuery (model : Model) (args : QueryArgs) : Async number :=
  let where_ := build_where args in
  let* p := call_count model {[ "where" := VObj where_ ]} in
  await p.

Definition aggregateQuery (model : Model) (args : QueryArgs) : Async value :=
  let where_ := build_where args in
  let* p := call_aggregate model
         (spread2 {[ "where" := VObj where_ ]} (aggregations args)) in
  await p.

Section CursorQueryBuilder.
Variable Date_toString : value -> string.

Definition cursorQueryBuilder (model : Model) (args : QueryArgs)
  : Async CursorQueryBuilderResponse :=
  let limit := default (Fin 10) (limit args) in
  let sortBy := default "createdAt" (sortBy args) in
  let sortOrder := default desc (sortOrder args) in
  let cursorPagination :=
    getCursorPagination (cursor args) None (Some limit) in
  let where_ := build_where args in
  let* p := call_findMany model
         (spread2
            (spread2
               (spread2
                  (spread2 {[ "where" := VObj where_ ]} cursorPagination)
                  {[ "orderBy" := VObj {[ sortBy := sortOrder_value sortOrder ]} ]})
               (optional_prop "include" (include args)))
            (optional_prop "select" (select args))) in
  let* results := await p in
  let r := processCursorResults Date_toString results limit None in
  async_ret
    {| cqb_data := cr_data r;
       cqb_meta := {| meta_nextCursor := cr_nextCursor r;
                      meta_hasMore := cr_hasMore r;
                      meta_cursorLimit := limit |} |}.
End CursorQueryBuilder.

End Legacy.

(** * Definitions used by the statements *)

(** The limit clamped to [1, 100], for a limit that is not [NaN]. *)
Definition clamp_limit (limit : number) : Z :=
  match limit with
  | NaN => 0
  | NegInf => 1
  | Fin z => Z.min (Z.max 1 z) 100
  | PosInf => 100
  end.

(** The cursor an item yields: its cursor field as a string, when the
    field is not [undefined]. *)
Definition cursor_of (Date_toString : value -> string)
    (cursorField : string) (item : obj) : option string :=
  let v := obj_get item cursorField in
  if is_undefined v then None else Some (js_String Date_toString v).

(** Rows that carry no [id]. *)
Definition rows_without_id : list obj :=
  [ {[ "name" := VStr "a" ]}; {[ "name" := VStr "b" ]} ].

(** A rendering of dates for the examples. *)
Definition iso_date (src : value) : string :=
  match src with
  | VStr s => s
  | _ => "Invalid Date"
  end.

(** One bound of a range condition: the property [name], when the bound
    is [present]. *)
Definition bound (name : string) (present : bool) (v : value) : obj :=
  if present then {[ name := v ]} else ∅.

(** [{gte?, lte?}] with a bound left out when it is [undefined]. *)
Definition number_range (from to : value) : value :=
  VObj (bound "gte" (negb (is_undefined from)) from
        ∪ bound "lte" (negb (is_undefined to)) to).

(** [{gte?, lte?}] with the bounds made dates; a bound that is missing
    or falsy is left out. *)
Definition date_range (from to : value) : value :=
  VObj (bound "gte" (truthy from) (newDate from)
        ∪ bound "lte" (truthy to) (newDate to)).

Definition is_number (v : value) : bool :=
  match v with VNum _ => true | _ => false end.

Definition is_string_or_date (v : value) : bool :=
  match v with VStr _ | VDate _ => true | _ => false end.

(** The condition a filter value stands for, case by case in the order
    the specification lists them; [None] when the key is dropped. *)
Definition filter_clause (v : value) : option value :=
  match v with
  | VUndefined | VNull | VStr "" => None
  | VObj o =>
      let from := obj_get o "from" in
      let to := obj_get o "to" in
      if is_number from || is_number to then Some (number_range from to)
      else if is_string_or_date from || is_string_or_date to
      then Some (date_range from to)
      else Some v
  | VArr [] => None
  | VArr _ => Some (VObj {[ "in" := v ]})
  | VBool _ => Some v
  | _ => Some v
  end.

(** A model without rows, for the examples. *)
Definition empty_model : Model :=
  {| findMany := fun _ => {| settles_at := 1; outcome := Fulfilled [] |};
     count := fun _ => {| settles_at := 1; outcome := Fulfilled (Fin 0) |};
     aggregate := fun _ => {| settles_at := 1; outcome := Fulfilled VNull |} |}.

(** The options of the integration test, with a search term and without. *)
Definition john_args : QueryArgs :=
  {| page := Some (Fin 2); limit := Some (Fin 10);
     cursor := None; cursorField := None;
     search := Some "john"; searchFields := Some ["email"];
     filters := Some {[ "status" := VStr "ACTIVE" ]};
     relationFilters := None;
     sortBy := Some "createdAt"; sortOrder := Some desc; sortFields := None;
     include := VObj {[ "profile" := VBool true ]};
     select := VObj {[ "id" := VBool true ]};
     aggregations := ∅ |}.

Definition blank_search_args : QueryArgs :=
  {| page := Some (Fin 2); limit := Some (Fin 10);
     cursor := None; cursorField := None;
     search := Some " "; searchFields := Some ["email"];
     filters := Some {[ "status" := VStr "ACTIVE" ]};
     relationFilters := None;
     sortBy := Some "createdAt"; sortOrder := Some desc; sortFields := None;
     include := VUndefined;
     select := VUndefined;
     aggregations := ∅ |}.

(** A model whose [count] is rejected. *)
Definition failing_count_model : Model :=
  {| findMany := fun _ => {| settles_at := 1; outcome := Fulfilled [] |};
     count := fun _ => {| settles_at := 2; outcome := Rejected (VStr "connection lost") |};
     aggregate := fun _ => {| settles_at := 1; outcome := Fulfilled VNull |} |}.

(** The reason a promise was rejected with, if it was. *)
Definition rejection {A} (p : promise A) : option value :=
  match outcome p with
  | Fulfilled _ => None
  | Rejected e => Some e
  end.

(** The rejection the model answers a recorded call with. *)
Definition rejection_of (model : Model) (c : call) : option value :=
  match call_op c with
  | OpFindMany => rejection (findMany model (call_args c))
  | OpCount => rejection (count model (call_args c))
  | OpAggregate => rejection (aggregate model (call_args c))
  end.

Definition settle_time_of (model : Model) (c : call) : nat :=
  match call_op c with
  | OpFindMany => settles_at (findMany model (call_args c))
  | OpCount => settles_at (count model (call_args c))
  | OpAggregate => settles_at (aggregate model (call_args c))
  end.

(** A run that makes one call ends the way that call ends. *)
Definition propagates_one {A} (model : Model) (r : list call * settled A) : Prop :=
  ∃ c, r.1 = [c] ∧
       match rejection_of model c with
       | None => ∃ a, r.2 = Fulfilled a
       | Some e => r.2 = Rejected e
       end.

(** A run that makes a [findMany] and a [count] call and waits for both
    is rejected as soon as one of them is, with that call's reason; when
    both are rejected, with the reason of the one rejected first. *)
Definition propagates_both {A} (model : Model) (r : list call * settled A) : Prop :=
  ∃ c1 c2, r.1 = [c1; c2] ∧
       call_op c1 = OpFindMany ∧ call_op c2 = OpCount ∧
       match rejection_of model c1, rejection_of model c2 with
       | None, None => ∃ a, r.2 = Fulfilled a
       | Some e, None | None, Some e => r.2 = Rejected e
       | Some e1, Some e2 =>
           r.2 = Rejected (if (settle_time_of model c1 <=? settle_time_of model c2)%nat
                           then e1 else e2)
       end.

(** The model and the options of the cursor integration test. *)
Definition three_row_model : Model :=
  {| findMany := fun _ =>
       {| settles_at := 1;
          outcome := Fulfilled [ {[ "id" := VStr "a" ]};
                                 {[ "id" := VStr "b" ]};
                                 {[ "id" := VStr "c" ]} ] |};
     count := fun _ => {| settles_at := 1; outcome := Fulfilled (Fin 3) |};
     aggregate := fun _ => {| settles_at := 1; outcome := Fulfilled VNull |} |}.

Definition live_args : QueryArgs :=
  {| page := None; limit := Some (Fin 2);
     cursor := Some "cursor-1"; cursorField := None;
     search := Some "live"; searchFields := Some ["title"];
     filters := Some {[ "status" := VStr "LIVE" ]};
     relationFilters := None;
     sortBy := Some "createdAt"; sortOrder := Some desc; sortFields := None;
     include := VObj {[ "speakers" := VBool true ]};
     select := VUndefined;
     aggregations := ∅ |}.

(** ** Proof automation for the orchestrators *)

(** The calls a run made, read off the goal. *)
Ltac name_both_calls model :=
  match goal with
  | |- context [Promise_all2 (findMany model ?a) (count model ?b)] =>
      set (fa := a); set (ca := b);
      exists {| call_op := OpFindMany; call_args := fa |},
             {| call_op := OpCount; call_args := ca |}
  end.

Ltac both_propagate model :=
  unfold propagates_both, async_bind, call_findMany, call_count, await;
  cbv zeta; cbn [fst snd app];
  name_both_calls model;
  unfold rejection_of, settle_time_of, rejection, Promise_all2;
  cbn [call_op call_args];
  destruct (outcome (findMany model _)), (outcome (count model _));
  cbn [outcome fst snd];
  repeat (split; [reflexivity|]);
  try (eexists; reflexivity); try reflexivity;
  by destruct (_ <=? _)%nat.

Ltac one_propagates op p :=
  unfold propagates_one, async_bind, call_findMany, call_count,
    call_aggregate, await;
  cbv zeta; cbn [fst snd app];
  match goal with
  | |- context [outcome (p ?a)] =>
      set (fa := a);
      exists {| call_op := op; call_args := fa |}
  end;
  unfold rejection_of, rejection; cbn [call_op call_args];
  destruct (outcome (p _)); cbn [fst snd];
  (split; [reflexivity|]); try (eexists; reflexivity); reflexivity.


(** * Definitions used by the further properties *)

(** The integration options with a limit above the cap. *)
Definition wide_args : QueryArgs :=
  {| page := None; limit := Some (Fin 150);
     cursor := None; cursorField := None;
     search := None; searchFields := None;
     filters := None; relationFilters := None;
     sortBy := None; sortOrder := None; sortFields := None;
     include := VUndefined; select := VUndefined;
     aggregations := ∅ |}.

(** [Number.MAX_SAFE_INTEGER]: up to it the integers are doubles and
    their sums and products, when they stay below it, are exact. *)
Definition MAX_SAFE_INTEGER : Z := 2 ^ 53 - 1.

Definition starts_with_white_space (s : string) : bool :=
  match s with
  | EmptyString => false
  | String a _ => is_white_space a
  end.

Fixpoint ends_with_white_space (s : string) : bool :=
  match s with
  | EmptyString => false
  | String a EmptyString => is_white_space a
  | String _ s' => ends_with_white_space s'
  end.

(** A field searched on the model itself. *)
Definition bare_field (f : string) : FieldConfig :=
  {| cfg_field := f; cfg_relation := None |}.

(** The [startsWith] condition on one field. *)
Definition startsWithCondition (trimmedPrefix field : string) : value :=
  VObj {[ field := VObj {[ "startsWith" := VStr trimmedPrefix;
                           "mode" := VStr "insensitive" ]} ]}.

(** Values that stand for themselves as a filter: non-empty strings,
    numbers, booleans and dates. *)
Definition is_literal (v : value) : bool :=
  match v with
  | VBool _ | VNum _ | VDate _ => true
  | VStr s => negb (is_empty_string s)
  | _ => false
  end.

(** What [buildRelationFilters] makes of the value under one relation
    name; [None] when the relation is skipped. *)
Definition relation_clause (conditions : value) : option value :=
  match conditions with
  | VObj _ | VArr _ | VDate _ =>
      Some (VObj (buildFilters (enumerable_props conditions)))
  | _ => None
  end.

(** * Properties *)

(** ** Pagination *)

Lemma clamp_limit_range limit : limit ≠ NaN → 1 ≤ clamp_limit limit ≤ 100.
Proof. destruct limit; simpl; [congruence | lia..]. Qed.

Lemma clamp_take limit :
  limit ≠ NaN →
  Math_min (Math_max (Fin 1) limit) MAX_LIMIT = Fin (clamp_limit limit).
Proof.
  intros Hl. destruct limit as [| |z|]; try congruence; try reflexivity.
  unfold Math_max, Math_min, MAX_LIMIT, clamp_limit, num_leb.
  destruct (Z.leb_spec 1 z).
  - destruct (Z.leb_spec z 100); f_equal; lia.
  - simpl. f_equal; lia.
Qed.

Example getPagination_page_2 :
  getPagination (Some (Fin 2)) (Some (Fin 10)) = {| take_ := Fin 10; skip_ := Fin 10 |}.
Proof. reflexivity. Qed.

Example getPagination_defaults :
  getPagination None None = {| take_ := Fin 10; skip_ := Fin 0 |}.
Proof. reflexivity. Qed.

Example getPagination_negative_page :
  getPagination (Some (Fin (-1))) (Some (Fin 10)) = {| take_ := Fin 10; skip_ := Fin 0 |}.
Proof. reflexivity. Qed.

(** C3, at a limit that is not a number.  [getPagination] is total, and
    the specification has every numeric input clamped, so that the
    limit handed on lies between 1 and 100.  With [limit = NaN] the
    code returns [take = NaN] and [skip = NaN]: [Math.max(1, NaN)] is
    [NaN], and nothing is clamped. *)
Theorem getPagination_NaN_limit :
  getPagination (Some (Fin 1)) (Some NaN) = {| take_ := NaN; skip_ := NaN |} ∧
  ¬ (∃ t, take_ (getPagination (Some (Fin 1)) (Some NaN)) = Fin t ∧ 1 ≤ t ≤ 100).
Proof. split; [reflexivity | intros (t & Ht & _); discriminate Ht]. Qed.

(** A page that is not a number is not raised to 1 either. *)
Example getPagination_NaN_page :
  getPagination (Some NaN) (Some (Fin 10)) = {| take_ := Fin 10; skip_ := NaN |}.
Proof. reflexivity. Qed.

(** Away from [NaN] the clamping of C3 holds: [take] is the limit
    clamped to [1, 100], [skip] is [(max(1, page) - 1) * take], and an
    input already in range is kept. *)
Lemma getPagination_clamps (page limit : number) :
  page ≠ NaN → limit ≠ NaN →
  let r := getPagination (Some page) (Some limit) in
  take_ r = Fin (clamp_limit limit) ∧
  1 ≤ clamp_limit limit ≤ 100 ∧
  skip_ r = match page with
            | Fin p => Fin ((Z.max 1 p - 1) * clamp_limit limit)
            | PosInf => PosInf
            | _ => Fin 0
            end ∧
  (∀ p l, page = Fin p → limit = Fin l → 1 ≤ p → 1 ≤ l ≤ 100 →
          take_ r = Fin l ∧ skip_ r = Fin ((p - 1) * l)).
Proof.
  intros Hp Hl r.
  assert (Ht : take_ r = Fin (clamp_limit limit)) by (apply clamp_take; done).
  pose proof (clamp_limit_range limit Hl) as Hr.
  assert (Hs : skip_ r = match page with
            | Fin p => Fin ((Z.max 1 p - 1) * clamp_limit limit)
            | PosInf => PosInf
            | _ => Fin 0
            end).
  { subst r. unfold getPagination in *. simpl in *. rewrite Ht.
    destruct page as [| |p|]; try congruence.
    - reflexivity.
    - unfold Math_max, num_leb.
      destruct (Z.leb_spec 1 p); simpl; do 2 f_equal; lia.
    - simpl. unfold inf_of_sgn.
      replace (1 * Z.sgn (clamp_limit limit)) with 1 by lia. reflexivity. }
  split; [done|]. split; [lia|]. split; [done|].
  intros p l -> -> H1 H2. rewrite Ht, Hs. simpl.
  split; repeat f_equal; lia.
Qed.

Lemma getPagination_clamps_at_250 :
  Fin 2 ≠ NaN ∧ Fin 250 ≠ NaN ∧
  take_ (getPagination (Some (Fin 2)) (Some (Fin 250))) = Fin 100 ∧
  skip_ (getPagination (Some (Fin 2)) (Some (Fin 250))) = Fin 100.
Proof.
  split; [discriminate|]. split; [discriminate|].
  destruct (getPagination_clamps (Fin 2) (Fin 250)) as (Ht & _ & Hs & _);
    [discriminate | discriminate |].
  split; [exact Ht | exact Hs].
Qed.

(** C4 as stated fails above the cap: a limit of 200 gives
    [take = 101], not 201. *)
Lemma getCursorPagination_limit_200 :
  getCursorPagination None None (Some (Fin 200)) !! "take" = Some (VNum (Fin 101)) ∧
  VNum (Fin 101) ≠ VNum (num_add (Fin 200) (Fin 1)).
Proof. split; [reflexivity | discriminate]. Qed.

Lemma is_empty_string_true s : is_empty_string s = true ↔ s = "".
Proof. destruct s; simpl; split; congruence. Qed.

Lemma is_empty_string_false s : is_empty_string s = false ↔ s ≠ "".
Proof. destruct s; simpl; split; congruence. Qed.

(** C4, amended.  For every limit other than [NaN],
    [getCursorPagination] returns [take = clamp(limit, 1, 100) + 1],
    which is [limit + 1] for a limit within [1, 100]; with a non-empty
    cursor it returns in addition [skip = 1] and
    [cursor = {[cursorField]: cursor}]; with the cursor missing or empty
    it returns [take] alone. *)
Theorem getCursorPagination_spec
    (cursor cursorField : option string) (limit : number) :
  limit ≠ NaN →
  let r := getCursorPagination cursor cursorField (Some limit) in
  r !! "take" = Some (VNum (Fin (clamp_limit limit + 1))) ∧
  (∀ l, limit = Fin l → 1 ≤ l ≤ 100 → r !! "take" = Some (VNum (Fin (l + 1)))) ∧
  (∀ c, cursor = Some c → c ≠ "" →
        r = {[ "take" := VNum (Fin (clamp_limit limit + 1));
               "skip" := VNum (Fin 1);
               "cursor" := VObj {[ default "id" cursorField := VStr c ]} ]}) ∧
  (cursor = None ∨ cursor = Some "" →
   r = {[ "take" := VNum (Fin (clamp_limit limit + 1)) ]}).
Proof.
  intros Hl r.
  assert (Hc : ∀ c, cursor = Some c → c ≠ "" →
        r = {[ "take" := VNum (Fin (clamp_limit limit + 1));
               "skip" := VNum (Fin 1);
               "cursor" := VObj {[ default "id" cursorField := VStr c ]} ]}).
  { intros c -> Hne. subst r. unfold getCursorPagination. cbv zeta.
    change (default DEFAULT_LIMIT (Some limit)) with limit.
    rewrite (clamp_take limit Hl). unfold js_and. simpl.
    apply is_empty_string_false in Hne. rewrite Hne. simpl.
    unfold spread2. apply map_eq. intros k.
    rewrite lookup_union.
    destruct (decide (k = "take")) as [->|]; [reflexivity|].
    destruct (decide (k = "skip")) as [->|]; [reflexivity|].
    destruct (decide (k = "cursor")) as [->|]; [reflexivity|].
    by simplify_map_eq. }
  assert (Hn : cursor = None ∨ cursor = Some "" →
   r = {[ "take" := VNum (Fin (clamp_limit limit + 1)) ]}).
  { intros [-> | ->]; subst r; unfold getCursorPagination; cbv zeta;
      change (default DEFAULT_LIMIT (Some limit)) with limit;
      rewrite (clamp_take limit Hl); unfold js_and, spread2; simpl;
      by rewrite (left_id_L ∅ (∪)). }
  assert (Ht : r !! "take" = Some (VNum (Fin (clamp_limit limit + 1)))).
  { destruct cursor as [c|]; [destruct (decide (c = "")) as [->|Hne]|].
    - rewrite Hn by auto. reflexivity.
    - rewrite (Hc c) by auto. reflexivity.
    - rewrite Hn by auto. reflexivity. }
  split; [done|]. split; [|done].
  intros l -> H. rewrite Ht. simpl. do 3 f_equal. lia.
Qed.

Lemma getCursorPagination_spec_witness :
  Fin 10 ≠ NaN ∧
  getCursorPagination (Some "abc-123") None (Some (Fin 10)) =
    {[ "take" := VNum (Fin 11);
       "skip" := VNum (Fin 1);
       "cursor" := VObj {[ "id" := VStr "abc-123" ]} ]}.
Proof.
  split; [discriminate|].
  destruct (getCursorPagination_spec (Some "abc-123") None (Fin 10))
    as (_ & _ & H & _); [discriminate|].
  apply (H "abc-123"); [reflexivity | discriminate].
Defined.

Section CursorResults.
Variable Date_toString : value -> string.

Lemma processCursorResults_nextCursor results limit cursorField :
  let r := processCursorResults Date_toString results limit cursorField in
  cr_nextCursor r =
    if cr_hasMore r
    then last (cr_data r) ≫= cursor_of Date_toString (default "id" cursorField)
    else None.
Proof.
  unfold processCursorResults, cursor_of. cbv zeta. cbn [cr_nextCursor cr_hasMore cr_data].
  destruct (num_gtb _ limit); [|reflexivity].
  cbn [andb].
  destruct (slice0 results limit) as [|x l] using rev_ind; [reflexivity|].
  rewrite last_snoc, length_app. cbn [length mbind option_bind truthy].
  replace (0 <? Z.of_nat (length l + 1)) with true by (symmetry; apply Z.ltb_lt; lia).
  by destruct (is_undefined _).
Qed.

Lemma slice0_exact {A} (results : list A) (limit : Z) :
  Z.of_nat (length results) = limit + 1 →
  slice0 results (Fin limit) = take (Z.to_nat limit) results.
Proof.
  intros H. unfold slice0. destruct (Z.ltb_spec limit 0); [|done].
  destruct results; [done | simpl in H; lia].
Qed.
End CursorResults.

(** C5 as stated fails on rows without the cursor field: the list has
    [limit + 1] rows, the field of the new last row stringifies to
    ["undefined"], and [nextCursor] is [null]. *)
Lemma processCursorResults_rows_without_id :
  let r := processCursorResults iso_date rows_without_id (Fin 1) None in
  Z.of_nat (length rows_without_id) = 1 + 1 ∧
  cr_hasMore r = true ∧
  last (cr_data r) = Some {[ "name" := VStr "a" ]} ∧
  cr_nextCursor r = None ∧
  cr_nextCursor r
  ≠ Some (js_String iso_date (obj_get {[ "name" := VStr "a" ]} "id")).
Proof. repeat split. discriminate. Qed.

(** C5, amended.  On a list of [limit + 1] rows [processCursorResults]
    keeps the first [limit] rows, sets [hasMore], and takes [nextCursor]
    from the new last row: its cursor field as a string when that field
    is defined, [null] when it is [undefined] or when no row is left.
    On a list of at most [limit] rows the data is the list, [hasMore] is
    false and [nextCursor] is [null].  With [hasMore] set and no row
    kept, [nextCursor] is [null]. *)
Theorem processCursorResults_spec
    (Date_toString : value -> string)
    (results : list obj) (limit : Z) (cursorField : option string) :
  let r := processCursorResults Date_toString results (Fin limit) cursorField in
  (Z.of_nat (length results) = limit + 1 →
     cr_data r = take (Z.to_nat limit) results ∧
     cr_hasMore r = true ∧
     cr_nextCursor r =
       last (take (Z.to_nat limit) results)
         ≫= cursor_of Date_toString (default "id" cursorField)) ∧
  (Z.of_nat (length results) ≤ limit →
     cr_data r = results ∧ cr_hasMore r = false ∧ cr_nextCursor r = None) ∧
  (cr_hasMore r = true → cr_data r = [] → cr_nextCursor r = None).
Proof.
  intros r.
  pose proof (processCursorResults_nextCursor Date_toString results (Fin limit)
                cursorField) as Hn.
  fold r in Hn.
  assert (Hm : cr_hasMore r = negb (Z.of_nat (length results) <=? limit))
    by reflexivity.
  assert (Hd : cr_data r = if cr_hasMore r then slice0 results (Fin limit) else results)
    by reflexivity.
  split; [|split].
  - intros H.
    assert (cr_hasMore r = true) as E.
    { rewrite Hm. apply negb_true_iff, Z.leb_gt. lia. }
    rewrite Hn, Hd, E, (slice0_exact _ _ H). done.
  - intros H.
    assert (cr_hasMore r = false) as E.
    { rewrite Hm. apply negb_false_iff, Z.leb_le. lia. }
    rewrite Hn, Hd, E. done.
  - intros E Hempty. rewrite Hn, E, Hempty. done.
Qed.

Lemma processCursorResults_spec_witness :
  let r := processCursorResults iso_date
             [ {[ "id" := VNum (Fin 7) ]}; {[ "id" := VNum (Fin 8) ]} ] (Fin 1) None in
  cr_data r = [ {[ "id" := VNum (Fin 7) ]} ] ∧
  cr_hasMore r = true ∧
  cr_nextCursor r = Some "7".
Proof.
  pose proof (processCursorResults_spec iso_date
    [ {[ "id" := VNum (Fin 7) ]}; {[ "id" := VNum (Fin 8) ]} ] 1 None) as (H & _ & _).
  apply H. reflexivity.
Defined.

(** C10.  When more rows came back than the limit and the last row kept
    has no value for the cursor field, [nextCursor] is [null]; and a
    [nextCursor] that is a string is the stringified cursor field of the
    last row kept, where that field is not [undefined]. *)
Theorem processCursorResults_undefined_cursor_field
    (Date_toString : value -> string)
    (results : list obj) (limit : number) (cursorField : option string) :
  let r := processCursorResults Date_toString results limit cursorField in
  let f := default "id" cursorField in
  (cr_hasMore r = true →
   ∀ item, last (cr_data r) = Some item → obj_get item f = VUndefined →
           cr_nextCursor r = None) ∧
  (∀ s, cr_nextCursor r = Some s →
        ∃ item, last (cr_data r) = Some item ∧
                obj_get item f ≠ VUndefined ∧
                s = js_String Date_toString (obj_get item f)).
Proof.
  intros r f.
  pose proof (processCursorResults_nextCursor Date_toString results limit
                cursorField) as Hn.
  fold r f in Hn. split.
  - intros E item Hl Hu. rewrite Hn, E, Hl. simpl.
    unfold cursor_of. by rewrite Hu.
  - intros s Hs. rewrite Hn in Hs.
    destruct (cr_hasMore r); [|done].
    destruct (last (cr_data r)) as [item|]; [|done].
    cbn [mbind option_bind] in Hs. unfold cursor_of in Hs.
    destruct (obj_get item f) eqn:Ev; cbn [is_undefined] in Hs; try done;
      exists item; rewrite Ev; (split; [done|]); (split; [done|]); congruence.
Qed.

Lemma processCursorResults_undefined_cursor_field_witness :
  cr_nextCursor (processCursorResults iso_date rows_without_id (Fin 1) None) = None.
Proof.
  pose proof (processCursorResults_undefined_cursor_field iso_date
                rows_without_id (Fin 1) None) as [H _].
  apply (H eq_refl {[ "name" := VStr "a" ]}); reflexivity.
Defined.

(** ** Search *)

Lemma trimEnd_empty t : is_empty_string (trimEnd t) = all_white_space t.
Proof.
  induction t as [|a t IH]; [reflexivity|]. simpl. rewrite IH.
  by destruct (is_white_space a), (all_white_space t).
Qed.

Lemma trimStart_white s : all_white_space (trimStart s) = all_white_space s.
Proof.
  induction s as [|a s IH]; [reflexivity|]. simpl.
  destruct (is_white_space a) eqn:E; [done|]. simpl. by rewrite E.
Qed.

Lemma trim_empty s : is_empty_string (trim s) = all_white_space s.
Proof. unfold trim. by rewrite trimEnd_empty, trimStart_white. Qed.

Lemma trimStart_split s :
  ∃ l, s = l ++ trimStart s ∧ all_white_space l = true.
Proof.
  induction s as [|a s (l & Hl & Hw)]; [by exists ""|]. simpl.
  destruct (is_white_space a) eqn:E.
  - exists (String a l). simpl. rewrite E, Hw.
    split; [exact (f_equal (String a) Hl) | done].
  - by exists "".
Qed.

Lemma trimEnd_split t :
  ∃ r, t = trimEnd t ++ r ∧ all_white_space r = true.
Proof.
  induction t as [|a t (r & Hr & Hw)]; [by exists ""|]. simpl.
  destruct (is_white_space a && is_empty_string (trimEnd t)) eqn:E.
  - exists (String a t). split; [done|]. simpl.
    apply andb_true_iff in E as [E1 E2]. rewrite E1. simpl.
    by rewrite <- trimEnd_empty.
  - exists r. split; [exact (f_equal (String a) Hr) | done].
Qed.

(** Trimming only removes white space at both ends: every other
    character stays as it is. *)
Lemma trim_split s :
  ∃ l r, s = l ++ trim s ++ r ∧
         all_white_space l = true ∧ all_white_space r = true.
Proof.
  destruct (trimStart_split s) as (l & Hl & Hwl).
  destruct (trimEnd_split (trimStart s)) as (r & Hr & Hwr).
  exists l, r. unfold trim. by rewrite <- Hr.
Qed.

Lemma length_eqb_0 {A} (l : list A) :
  (Z.of_nat (length l) =? 0) = bool_decide (l = []).
Proof.
  destruct l; [done|]. rewrite bool_decide_false by done.
  apply Z.eqb_neq. simpl length. lia.
Qed.

Lemma buildSearchQuery_nonblank (s : string) (fields : list string) :
  all_white_space s = false → fields ≠ [] →
  buildSearchQuery (Some s) (Some fields) =
    Some {[ "OR" := VArr (map (containsCondition (trim s)) fields) ]}.
Proof.
  intros Hw Hf. unfold buildSearchQuery. cbn [default from_option id].
  rewrite trim_empty, Hw, length_eqb_0.
  destruct s; [done|]. cbn [is_empty_string orb].
  by rewrite bool_decide_false.
Qed.

(** C7.  [buildSearchQuery] returns [undefined] exactly when the term is
    missing, empty or all white space, or the field list is empty (or
    omitted).  Otherwise it returns [{OR: [...]}] with one condition
    [{[field]: {contains, mode: "insensitive"}}] per field, in order;
    [contains] is the term without its leading and trailing white space
    and otherwise unchanged, letter case included. *)
Theorem buildSearchQuery_spec (search : option string) (fields : list string) :
  (buildSearchQuery search (Some fields) = None ↔
     search = None ∨ search = Some "" ∨
     (∃ s, search = Some s ∧ all_white_space s = true) ∨
     fields = []) ∧
  (∀ s, search = Some s → all_white_space s = false → fields ≠ [] →
     buildSearchQuery search (Some fields) =
       Some {[ "OR" := VArr (map (fun field =>
                  VObj {[ field := VObj {[ "contains" := VStr (trim s);
                                           "mode" := VStr "insensitive" ]} ]})
                fields) ]} ∧
     ∃ l r, s = l ++ trim s ++ r ∧
            all_white_space l = true ∧ all_white_space r = true) ∧
  buildSearchQuery search None = None.
Proof.
  split; [|split].
  - unfold buildSearchQuery. cbn [default from_option id].
    destruct search as [s|]; [|by intuition].
    rewrite trim_empty, length_eqb_0.
    destruct s as [|a s].
    + simpl. by intuition.
    + cbn [is_empty_string orb].
      destruct (all_white_space (String a s)) eqn:Ew.
      * cbn [orb]. split; [|done]. intros _. right. right. left. by eexists.
      * cbn [orb]. case_bool_decide as Hf.
        -- split; [|done]. intros _. by repeat right.
        -- split; [done|]. intros [?|[?|[(s' & Hs' & Hw)|?]]]; try done.
           simplify_eq. congruence.
  - intros s -> Hw Hf. split; [|apply trim_split].
    by apply buildSearchQuery_nonblank.
  - unfold buildSearchQuery. destruct search as [s|]; [|done].
    cbn [default from_option id length]. by rewrite !orb_true_r.
Qed.

Lemma buildSearchQuery_spec_witness :
  all_white_space "  Test " = false ∧ ["email"] ≠ [] ∧
  buildSearchQuery (Some "  Test ") (Some ["email"]) =
    Some {[ "OR" := VArr [ VObj {[ "email" :=
               VObj {[ "contains" := VStr "Test";
                       "mode" := VStr "insensitive" ]} ]} ] ]}.
Proof.
  split; [reflexivity|]. split; [discriminate|].
  destruct (buildSearchQuery_spec (Some "  Test ") ["email"]) as (_ & H & _).
  destruct (H "  Test ") as [E _]; [reflexivity | reflexivity | discriminate |].
  exact E.
Defined.

(** ** Filters *)

Lemma buildNumberRangeFilter_range (o : obj) :
  buildNumberRangeFilter (VObj o) = number_range (obj_get o "from") (obj_get o "to").
Proof.
  unfold buildNumberRangeFilter, number_range, bound, get_prop, obj_get.
  destruct (is_undefined (default VUndefined (o !! "from")));
    destruct (is_undefined (default VUndefined (o !! "to")));
    cbn [negb]; f_equal; apply map_eq; intros k;
    rewrite ?lookup_union, ?lookup_insert, ?lookup_singleton, ?lookup_empty;
    repeat case_decide; simplify_eq; done.
Qed.

Lemma buildDateRangeFilter_range (o : obj) :
  buildDateRangeFilter (VObj o) = date_range (obj_get o "from") (obj_get o "to").
Proof.
  unfold buildDateRangeFilter, date_range, bound, get_prop, obj_get.
  destruct (truthy (default VUndefined (o !! "from")));
    destruct (truthy (default VUndefined (o !! "to")));
    f_equal; apply map_eq; intros k;
    rewrite ?lookup_union, ?lookup_insert, ?lookup_singleton, ?lookup_empty;
    repeat case_decide; simplify_eq; done.
Qed.

Lemma has_prop_defined (o : obj) k :
  is_undefined (obj_get o k) = false → has_prop k (VObj o) = true.
Proof.
  unfold obj_get, has_prop. destruct (o !! k) eqn:E; [|done].
  intros _. by apply bool_decide_eq_true.
Qed.

Lemma isNumberRangeFilter_obj (o : obj) :
  isNumberRangeFilter (VObj o)
  = is_number (obj_get o "from") || is_number (obj_get o "to").
Proof.
  unfold isNumberRangeFilter. cbn [typeof jstype_eqb is_null Array_isArray negb andb get_prop].
  fold (obj_get o "from") (obj_get o "to").
  pose proof (has_prop_defined o "from"). pose proof (has_prop_defined o "to").
  destruct (obj_get o "from") eqn:Ef, (obj_get o "to") eqn:Et;
    cbn [typeof jstype_eqb is_number orb andb is_undefined] in *;
    rewrite ?andb_true_r, ?andb_false_r, ?orb_true_r, ?orb_false_r; try done;
    rewrite ?H, ?H0 by done; rewrite ?orb_true_r; done.
Qed.

Lemma isDateRangeFilter_obj (o : obj) :
  isDateRangeFilter (VObj o)
  = is_string_or_date (obj_get o "from") || is_string_or_date (obj_get o "to").
Proof.
  unfold isDateRangeFilter. cbn [typeof jstype_eqb is_null Array_isArray negb orb get_prop].
  fold (obj_get o "from") (obj_get o "to").
  pose proof (has_prop_defined o "from"). pose proof (has_prop_defined o "to").
  destruct (has_prop "from" (VObj o)) eqn:Hf, (has_prop "to" (VObj o)) eqn:Ht;
  destruct (obj_get o "from") eqn:Ef, (obj_get o "to") eqn:Et;
    cbn [typeof jstype_eqb is_string_or_date orb andb negb is_undefined isDateLike instanceof_Date] in *;
    try done; (by specialize (H eq_refl)) || (by specialize (H0 eq_refl)).
Qed.

Lemma buildFilters_step_clause key v (where_ : obj) :
  buildFilters_step key v where_
  = match filter_clause v with
    | Some c => obj_set where_ key c
    | None => where_
    end.
Proof.
  unfold buildFilters_step.
  destruct v as [| | b | n | s | src | l | o]; try reflexivity.
  - by destruct s.
  - by destruct l.
  - cbn [is_undefined is_null is_empty_string_value orb filter_clause].
    rewrite isNumberRangeFilter_obj, isDateRangeFilter_obj.
    rewrite buildNumberRangeFilter_range, buildDateRangeFilter_range.
    destruct (is_number _ || is_number _); [done|].
    destruct (is_string_or_date _ || is_string_or_date _); done.
Qed.

Lemma obj_set_lookup (o : obj) (key k : string) (c : value) :
  obj_set o key c !! k
  = if bool_decide (key = k ∧ key ≠ "__proto__") then Some c else o !! k.
Proof.
  unfold obj_set.
  destruct (decide (key = "__proto__")) as [Hp|Hp].
  - rewrite (bool_decide_true _ Hp), bool_decide_false; [done|]. by intros [_ ?].
  - rewrite (bool_decide_false _ Hp).
    destruct (decide (key = k)) as [->|Hk].
    + by rewrite lookup_insert_eq, bool_decide_true.
    + rewrite lookup_insert_ne by done. rewrite bool_decide_false; [done|].
      by intros [? _].
Qed.

(** The own properties of the result, name by name: the dispatch of
    the value under the same name, and nothing under [__proto__]. *)
Lemma buildFilters_lookup (filters : obj) (key : string) :
  buildFilters filters !! key
  = if bool_decide (key = "__proto__") then None
    else filters !! key ≫= filter_clause.
Proof.
  unfold buildFilters.
  apply (map_fold_weak_ind
           (fun (r : obj) (m : obj) =>
              r !! key = if bool_decide (key = "__proto__") then None
                         else m !! key ≫= filter_clause)).
  - rewrite !lookup_empty. by case_bool_decide.
  - intros i x m r Hi IH. rewrite buildFilters_step_clause.
    destruct (filter_clause x) as [c|] eqn:Ec.
    + rewrite obj_set_lookup, IH.
      repeat case_bool_decide; destruct_and?; subst; try done.
      * rewrite lookup_insert_eq. cbn. by rewrite Ec.
      * rewrite lookup_insert_ne; [done|]. naive_solver.
    + rewrite IH. case_bool_decide; [done|].
      destruct (decide (i = key)) as [->|Hne].
      * rewrite lookup_insert_eq, Hi. cbn. by rewrite Ec.
      * by rewrite lookup_insert_ne.
Qed.




Example buildFilters_drops_empty_values :
  buildFilters {[ "a" := VUndefined; "b" := VNull; "c" := VStr ""; "d" := VArr [] ]} = ∅.
Proof. reflexivity. Qed.

Example buildFilters_number_range :
  buildFilters {[ "amount" := VObj {[ "from" := VNum (Fin 10); "to" := VNum (Fin 20) ]} ]}
  = {[ "amount" := VObj {[ "gte" := VNum (Fin 10); "lte" := VNum (Fin 20) ]} ]}.
Proof. reflexivity. Qed.

Example buildFilters_one_sided_ranges :
  buildFilters {[ "amount" := VObj {[ "to" := VNum (Fin 20) ]};
                  "createdAt" := VObj {[ "from" := VStr "2025-01-01" ]} ]}
  = {[ "amount" := VObj {[ "lte" := VNum (Fin 20) ]};
       "createdAt" := VObj {[ "gte" := VDate (VStr "2025-01-01") ]} ]}.
Proof. reflexivity. Qed.

Lemma Object_keys_nonempty (o : obj) :
  (0 <? Z.of_nat (length (Object_keys o))) = bool_decide (o ≠ ∅).
Proof.
  unfold Object_keys. rewrite length_fmap.
  destruct (map_to_list o) eqn:E.
  - apply map_to_list_empty_iff in E as ->. by rewrite bool_decide_false by auto.
  - rewrite bool_decide_true; [done|].
    intros ->. by rewrite map_to_list_empty in E.
Qed.

Lemma validFilters_survivors (objs : list obj) :
  List.filter (fun o : obj => 0 <? Z.of_nat (length (Object_keys o))) objs
  = filter (fun o : obj => o ≠ ∅) objs.
Proof.
  induction objs as [|o objs IH]; [done|].
  simpl. rewrite Object_keys_nonempty, IH.
  rewrite filter_cons. by case_bool_decide; case_decide.
Qed.

(** C8.  [combineFiltersWithOr] first drops the objects without keys;
    with no survivor it returns [undefined], with one that object
    itself, with two or more [{OR: [survivors]}]. *)
Theorem combineFiltersWithOr_spec (objs : list obj) :
  combineFiltersWithOr objs =
    match filter (fun o : obj => o ≠ ∅) objs with
    | [] => VUndefined
    | [o] => VObj o
    | survivors => VObj {[ "OR" := VArr (VObj <$> survivors) ]}
    end.
Proof.
  unfold combineFiltersWithOr. cbv zeta. rewrite validFilters_survivors.
  destruct (filter _ objs) as [|o1 [|o2 l]]; try reflexivity.
  rewrite !length_eqb_0, bool_decide_false by done.
  replace (Z.of_nat (length (o1 :: o2 :: l)) =? 1) with false; [done|].
  symmetry. apply Z.eqb_neq. simpl length. lia.
Qed.

Example combineFiltersWithOr_single :
  combineFiltersWithOr [∅; {[ "a" := VNum (Fin 1) ]}] = VObj {[ "a" := VNum (Fin 1) ]}.
Proof. reflexivity. Qed.

Example combineFiltersWithOr_two :
  combineFiltersWithOr [{[ "a" := VNum (Fin 1) ]}; {[ "b" := VNum (Fin 2) ]}]
  = VObj {[ "OR" := VArr [ VObj {[ "a" := VNum (Fin 1) ]};
                           VObj {[ "b" := VNum (Fin 2) ]} ] ]}.
Proof. reflexivity. Qed.

(** ** Orchestrators *)

Lemma combineFilters_three (a b c : obj) :
  combineFilters [a; b; c] = c ∪ (b ∪ a).
Proof.
  unfold combineFilters, spread2. cbn [foldl].
  by rewrite (right_id_L ∅ (∪)).
Qed.

Lemma build_where_merge (args : QueryArgs) :
  build_where args =
    buildRelationFilters (default ∅ (relationFilters args))
    ∪ (buildFilters (default ∅ (filters args))
       ∪ default ∅ (buildSearchQuery (search args)
                      (Some (default [] (searchFields args))))).
Proof. unfold build_where. cbv zeta. apply combineFilters_three. Qed.

Lemma optional_prop_lookup_ne name v k :
  name ≠ k → optional_prop name v !! k = None.
Proof.
  intros Hne. unfold optional_prop, js_and.
  destruct (truthy v) eqn:E.
  - cbn [spread_props]. by rewrite lookup_singleton_ne.
  - by destruct v.
Qed.

Lemma Math_ceil_div_ceiling (n t : Z) :
  0 < t →
  ∃ p, Math_ceil_div (Fin n) (Fin t) = Fin p ∧ t * (p - 1) < n ≤ t * p.
Proof.
  intros Ht. exists (- (- n / t)). split.
  - unfold Math_ceil_div. by rewrite (proj2 (Z.eqb_neq t 0)) by lia.
  - pose proof (Z.div_mod (- n) t ltac:(lia)).
    pose proof (Z.mod_pos_bound (- n) t Ht). nia.
Qed.

(** C1 as stated fails on a term of white space: the term is not
    empty, yet the [where] handed to [findMany] has the filter clause
    and no [OR] clause. *)
Lemma queryBuilder_blank_search :
  search blank_search_args = Some " " ∧
  searchFields blank_search_args = Some ["email"] ∧
  filters blank_search_args = Some {[ "status" := VStr "ACTIVE" ]} ∧
  ∃ c1 c2 (w : obj),
    (run (queryBuilder empty_model blank_search_args)).1 = [c1; c2] ∧
    call_args c1 !! "where" = Some (VObj w) ∧
    w !! "status" = Some (VStr "ACTIVE") ∧
    w !! "OR" = None.
Proof.
  do 3 (split; [reflexivity|]).
  eexists _, _, _. split; [reflexivity|]. split; [reflexivity|].
  split; reflexivity.
Qed.

(** C1, amended.  The [where] of [queryBuilder] is the later-wins
    merge of the search fragment, the filter fragment and the
    relation-filter fragment (in a union the left operand wins), which
    is the merge of the first two when [relationFilters] is omitted or
    empty.  When the term is not all white space and there are search
    fields, the search fragment is the [OR] clause, and [where] has it
    unless a filter or relation key [OR] overwrites it; [where] has
    every clause of the filter fragment that no relation key
    overwrites.  [findMany] and [count] are each called once, in that
    order, with that [where]; when both are fulfilled the result is
    [{data, meta: {total, page, limit: take, totalPages}}] with
    [totalPages = ceil(total / take)], [take] being the clamped limit. *)
Theorem queryBuilder_where_and_envelope (model : Model) (args : QueryArgs) :
  let fields := default [] (searchFields args) in
  let sq := default ∅ (buildSearchQuery (search args) (Some fields)) in
  let fq := buildFilters (default ∅ (filters args)) in
  let rq := buildRelationFilters (default ∅ (relationFilters args)) in
  let w := rq ∪ (fq ∪ sq) in
  let page := default (Fin 1) (page args) in
  let take := take_ (getPagination (Some page) (Some (default (Fin 10) (limit args)))) in
  (∀ s, search args = Some s → all_white_space s = false → fields ≠ [] →
     sq = {[ "OR" := VArr (map (containsCondition (trim s)) fields) ]} ∧
     (fq !! "OR" = None → rq !! "OR" = None →
      w !! "OR" = Some (VArr (map (containsCondition (trim s)) fields)))) ∧
  (∀ k c, fq !! k = Some c → rq !! k = None → w !! k = Some c) ∧
  (relationFilters args = None ∨ relationFilters args = Some ∅ → w = fq ∪ sq) ∧
  (∃ c1 c2,
     (run (queryBuilder model args)).1 = [c1; c2] ∧
     call_op c1 = OpFindMany ∧ call_op c2 = OpCount ∧
     call_args c1 !! "where" = Some (VObj w) ∧
     call_args c2 !! "where" = Some (VObj w) ∧
     ∀ data total,
       outcome (findMany model (call_args c1)) = Fulfilled data →
       outcome (count model (call_args c2)) = Fulfilled total →
       (run (queryBuilder model args)).2 =
         Fulfilled {| qb_data := data;
                      qb_meta := {| meta_total := total;
                                    meta_page := page;
                                    meta_limit := take;
                                    meta_totalPages := Math_ceil_div total take |} |}) ∧
  (∀ n t, 0 < t →
     ∃ p, Math_ceil_div (Fin n) (Fin t) = Fin p ∧ t * (p - 1) < n ≤ t * p).
Proof.
  intros fields sq fq rq w page take.
  split; [|split; [|split; [|split]]].
  - intros s Hs Hw Hf.
    assert (Hsq : sq = {[ "OR" := VArr (map (containsCondition (trim s)) fields) ]}).
    { subst sq. by rewrite Hs, buildSearchQuery_nonblank. }
    split; [done|]. intros H1 H2. subst w.
    rewrite lookup_union_r by done. rewrite lookup_union_r by done.
    rewrite Hsq. apply lookup_singleton_eq.
  - intros k c Hk Hr. subst w. rewrite lookup_union_r by done.
    by apply lookup_union_Some_l.
  - intros Hr. subst w rq.
    assert (buildRelationFilters (default ∅ (relationFilters args)) = ∅) as ->.
    { destruct Hr as [-> | ->]; reflexivity. }
    by rewrite (left_id_L ∅ (∪)).
  - unfold run, queryBuilder. cbv zeta.
    unfold async_bind, call_findMany, call_count, await.
    cbn [fst snd app]. rewrite build_where_merge. fold fields sq fq rq w.
    match goal with
    | |- context [Promise_all2 (findMany model ?a) (count model ?b)] =>
        set (fa := a); set (ca := b)
    end.
    exists {| call_op := OpFindMany; call_args := fa |},
           {| call_op := OpCount; call_args := ca |}.
    split; [by destruct (outcome (Promise_all2 _ _)) as [[??]|?]|].
    split; [reflexivity|]. split; [reflexivity|].
    cbn [call_args]. subst fa ca.
    split; [|split].
    + unfold spread2.
      rewrite lookup_union_r by (by apply optional_prop_lookup_ne).
      rewrite lookup_union_r by (by apply optional_prop_lookup_ne).
      apply lookup_insert_eq.
    + apply lookup_singleton_eq.
    + intros data total Hd Ht.
      unfold Promise_all2. rewrite Hd, Ht. reflexivity.
  - apply Math_ceil_div_ceiling.
Qed.

Lemma queryBuilder_where_and_envelope_witness :
  ∃ c1 c2 (w : obj),
    (run (queryBuilder empty_model john_args)).1 = [c1; c2] ∧
    call_args c1 !! "where" = Some (VObj w) ∧
    call_args c2 !! "where" = Some (VObj w) ∧
    w !! "status" = Some (VStr "ACTIVE") ∧
    w !! "OR" = Some (VArr [containsCondition "john" "email"]).
Proof.
  destruct (queryBuilder_where_and_envelope empty_model john_args)
    as (Hs & _ & _ & (c1 & c2 & Hl & _ & _ & H1 & H2 & _) & _).
  exists c1, c2. eexists. split; [exact Hl|]. split; [exact H1|]. split; [exact H2|].
  split; [reflexivity|].
  destruct (Hs "john") as [_ H]; [reflexivity | reflexivity | discriminate |].
  apply H; reflexivity.
Defined.

(** C2.  [cursorQueryBuilder] calls [findMany] once.  The effective
    sort field is [sortBy] when that is given and not empty, the cursor
    field otherwise.  When it differs from the cursor field, [orderBy]
    is the list [[{[sortBy]: sortOrder}, {[cursorField]: sortOrder}]];
    when it is the cursor field, [orderBy] is [{[sortBy]: sortOrder}]. *)
Theorem cursorQueryBuilder_orderBy
    (Date_toString : value -> string) (model : Model) (args : QueryArgs) :
  let cf := default "id" (cursorField args) in
  let eff := string_or (sortBy args) cf in
  let o := sortOrder_value (default desc (sortOrder args)) in
  (∀ s, sortBy args = Some s → s ≠ "" → eff = s) ∧
  (sortBy args = None ∨ sortBy args = Some "" → eff = cf) ∧
  ∃ c, (run (cursorQueryBuilder Date_toString model args)).1 = [c] ∧
       call_op c = OpFindMany ∧
       (eff ≠ cf →
        call_args c !! "orderBy" = Some (VArr [VObj {[ eff := o ]}; VObj {[ cf := o ]}])) ∧
       (eff = cf → call_args c !! "orderBy" = Some (VObj {[ eff := o ]})).
Proof.
  intros cf eff o.
  split; [|split].
  - intros s Hs Hne. subst eff. unfold string_or. rewrite Hs.
    by apply is_empty_string_false in Hne as ->.
  - intros [Hs | Hs]; subst eff; unfold string_or; by rewrite Hs.
  - unfold run, cursorQueryBuilder. cbv zeta.
    unfold async_bind, call_findMany, await. cbn [fst snd app].
    fold cf. fold eff. fold o.
    match goal with
    | |- context [findMany model ?a] => set (fa := a)
    end.
    exists {| call_op := OpFindMany; call_args := fa |}.
    split; [by destruct (outcome (findMany model fa))|].
    split; [reflexivity|].
    cbn [call_args].
    assert (Hl : fa !! "orderBy" =
                 Some (if String.eqb eff cf
                       then VObj {[ eff := o ]}
                       else VArr [VObj {[ eff := o ]}; VObj {[ cf := o ]}])).
    { subst fa. unfold spread2.
      rewrite lookup_union_r by (by apply optional_prop_lookup_ne).
      rewrite lookup_union_r by (by apply optional_prop_lookup_ne).
      apply lookup_union_Some_l, lookup_singleton_eq. }
    rewrite Hl. split; intros H.
    + by rewrite (proj2 (String.eqb_neq eff cf)).
    + by rewrite (proj2 (String.eqb_eq eff cf)).
Qed.

Lemma cursorQueryBuilder_orderBy_witness :
  ∃ c, (run (cursorQueryBuilder iso_date empty_model john_args)).1 = [c] ∧
       call_args c !! "orderBy" =
         Some (VArr [VObj {[ "createdAt" := VStr "desc" ]};
                     VObj {[ "id" := VStr "desc" ]}]).
Proof.
  destruct (cursorQueryBuilder_orderBy iso_date empty_model john_args)
    as (_ & _ & c & Hl & _ & H & _).
  exists c. split; [exact Hl|]. apply H. discriminate.
Defined.

Example cursorQueryBuilder_three_rows :
  (run (cursorQueryBuilder iso_date three_row_model live_args)).2 =
    Fulfilled {| cqb_data := [ {[ "id" := VStr "a" ]}; {[ "id" := VStr "b" ]} ];
                 cqb_meta := {| meta_nextCursor := Some "b";
                                meta_hasMore := true;
                                meta_cursorLimit := Fin 2 |} |}.
Proof. reflexivity. Qed.

Example queryBuilder_envelope :
  (run (queryBuilder three_row_model john_args)).2 =
    Fulfilled {| qb_data := [ {[ "id" := VStr "a" ]}; {[ "id" := VStr "b" ]};
                              {[ "id" := VStr "c" ]} ];
                 qb_meta := {| meta_total := Fin 3;
                               meta_page := Fin 2;
                               meta_limit := Fin 10;
                               meta_totalPages := Fin 1 |} |}.
Proof. reflexivity. Qed.

(** C9.  Every orchestrator ends the way its calls into the data-access
    layer end.  [cursorQueryBuilder], [countQuery] and [aggregateQuery]
    make one call and are rejected with its reason when it is rejected.
    [queryBuilder] and [advancedQueryBuilder] make the [findMany] and the
    [count] call and are rejected as soon as one of the two is, with
    that call's own reason (the earlier one when both are); no result
    is produced then. *)
Theorem data_access_errors_propagate
    (Date_toString : value -> string) (model : Model) (args : QueryArgs) :
  propagates_both model (run (queryBuilder model args)) ∧
  propagates_both model (run (advancedQueryBuilder model args)) ∧
  propagates_one model (run (cursorQueryBuilder Date_toString model args)) ∧
  propagates_one model (run (countQuery model args)) ∧
  propagates_one model (run (aggregateQuery model args)).
Proof.
  split; [|split; [|split; [|split]]].
  - unfold run, queryBuilder. both_propagate model.
  - unfold run, advancedQueryBuilder. both_propagate model.
  - unfold run, cursorQueryBuilder. one_propagates OpFindMany (findMany model).
  - unfold run, countQuery. one_propagates OpCount (count model).
  - unfold run, aggregateQuery. one_propagates OpAggregate (aggregate model).
Qed.

Lemma data_access_errors_propagate_witness :
  (run (queryBuilder failing_count_model john_args)).2
  = Rejected (VStr "connection lost").
Proof.
  destruct (data_access_errors_propagate iso_date failing_count_model john_args)
    as ((c1 & c2 & Hl & _ & _ & H) & _).
  injection Hl as <- <-. exact H.
Defined.

(** * Further properties *)

(** ** pagination.ts *)



(** [getPagination]: consecutive pages are adjacent.  The page and
    the limit are integers (the limit may also be infinite), and the
    page is a safe integer small enough for [page * 100] to be one too,
    so that the products below are exact.  Then the next page has the
    same [take] and, for a page of at least 1, starts where this one
    ends ([skip + take]); every page below 1 is served as page 1;
    [skip] is never negative. *)
Theorem getPagination_pages_adjacent (page : Z) (limit : number) :
  limit ≠ NaN → - MAX_SAFE_INTEGER ≤ page → page * 100 ≤ MAX_SAFE_INTEGER →
  let g := getPagination (Some (Fin page)) (Some limit) in
  let g' := getPagination (Some (Fin (page + 1))) (Some limit) in
  take_ g' = take_ g ∧
  (1 ≤ page → skip_ g' = num_add (skip_ g) (take_ g)) ∧
  (page ≤ 1 → skip_ g = Fin 0) ∧
  ∃ s, skip_ g = Fin s ∧ 0 ≤ s ≤ MAX_SAFE_INTEGER.
Proof.
  intros Hl _ Hm g g'.
  destruct (getPagination_clamps (Fin page) limit) as (Ht & Hr & Hs & _); [done..|].
  destruct (getPagination_clamps (Fin (page + 1)) limit) as (Ht' & _ & Hs' & _); [done..|].
  fold g in Ht, Hs. fold g' in Ht', Hs'.
  split; [congruence|]. split; [|split].
  - intros Hp. rewrite Hs', Hs, Ht. simpl. f_equal. nia.
  - intros Hp. rewrite Hs. f_equal. nia.
  - eexists. split; [exact Hs|]. unfold MAX_SAFE_INTEGER in *. nia.
Qed.

Lemma getPagination_pages_adjacent_witness :
  Fin 25 ≠ NaN ∧ - MAX_SAFE_INTEGER ≤ 3 ∧ 3 * 100 ≤ MAX_SAFE_INTEGER ∧
  skip_ (getPagination (Some (Fin 4)) (Some (Fin 25))) = Fin 75.
Proof.
  split; [discriminate|]. split; [done|]. split; [done|].
  destruct (getPagination_pages_adjacent 3 (Fin 25)) as (_ & H & _);
    [discriminate | done | done |].
  exact (H ltac:(lia)).
Defined.

(** An integer page of at least 1 has rows to show exactly when it is
    not beyond the page count: [skip < total] iff [page <= totalPages],
    for the [skip] and [take] of [getPagination] and the page count of
    [calculateTotalPages(total, take)].  The row count [total] is a
    safe integer and so is [page * 100], which keeps the product and
    the rounded quotient of the code exact. *)
Theorem page_within_totalPages (page total : Z) (limit : number) :
  limit ≠ NaN → 1 ≤ page → page * 100 ≤ MAX_SAFE_INTEGER →
  0 ≤ total ≤ MAX_SAFE_INTEGER →
  let g := getPagination (Some (Fin page)) (Some limit) in
  ∃ s pages,
    skip_ g = Fin s ∧
    calculateTotalPages (Fin total) (take_ g) = Fin pages ∧
    (s < total ↔ page ≤ pages).
Proof.
  intros Hl Hp _ _ g.
  destruct (getPagination_clamps (Fin page) limit) as (Ht & Hr & Hs & _); [done..|].
  fold g in Ht, Hs. rewrite Ht, Hs.
  destruct (Math_ceil_div_ceiling total (clamp_limit limit)) as (P & HP & H1 & H2);
    [lia|].
  eexists _, P. split; [reflexivity|]. split; [exact HP|].
  split; intros H; nia.
Qed.

Lemma page_within_totalPages_witness :
  Fin 10 ≠ NaN ∧ 1 ≤ 3 ∧ 3 * 100 ≤ MAX_SAFE_INTEGER ∧
  0 ≤ 25 ≤ MAX_SAFE_INTEGER ∧
  ∃ s pages,
    skip_ (getPagination (Some (Fin 3)) (Some (Fin 10))) = Fin s ∧
    calculateTotalPages (Fin 25)
      (take_ (getPagination (Some (Fin 3)) (Some (Fin 10)))) = Fin pages ∧
    (s < 25 ↔ 3 ≤ pages).
Proof.
  split; [discriminate|]. split; [lia|]. split; [done|]. split; [done|].
  apply (page_within_totalPages 3 25 (Fin 10)); [discriminate | lia | done | done].
Defined.

Lemma slice0_take {A} (results : list A) (limit : number) :
  ∃ n, slice0 results limit = take n results.
Proof.
  destruct limit as [| |z|]; simpl.
  - by exists 0%nat.
  - by exists 0%nat.
  - destruct (z <? 0); by eexists.
  - exists (length results). by rewrite firstn_all.
Qed.

(** [processCursorResults] only ever trims: the data is an initial
    segment of the rows it was given, the whole list when [hasMore] is
    false and exactly [limit] rows when [hasMore] is true (for a limit
    that is a non-negative integer); a [nextCursor] is only given
    together with [hasMore] and at least one row. *)
Theorem processCursorResults_trims
    (Date_toString : value -> string)
    (results : list obj) (limit : number) (cursorField : option string) :
  let r := processCursorResults Date_toString results limit cursorField in
  (∃ rest, results = (cr_data r ++ rest)%list) ∧
  (cr_hasMore r = false → cr_data r = results) ∧
  (∀ z, limit = Fin z → 0 ≤ z → cr_hasMore r = true →
        Z.of_nat (length (cr_data r)) = z) ∧
  (∀ s, cr_nextCursor r = Some s → cr_hasMore r = true ∧ cr_data r ≠ []).
Proof.
  intros r.
  assert (Hd : cr_data r = if cr_hasMore r then slice0 results limit else results)
    by reflexivity.
  split; [|split; [|split]].
  - rewrite Hd. destruct (cr_hasMore r).
    + destruct (slice0_take results limit) as [n ->].
      exists (drop n results). by rewrite take_drop.
    + exists []. by rewrite app_nil_r.
  - intros E. by rewrite Hd, E.
  - intros z -> Hz E. rewrite Hd, E.
    assert (z < Z.of_nat (length results)) as Hlt.
    { change (cr_hasMore r) with (negb (Z.of_nat (length results) <=? z)) in E.
      apply negb_true_iff, Z.leb_gt in E. lia. }
    unfold slice0. destruct (Z.ltb_spec z 0); [lia|].
    rewrite length_take. lia.
  - intros s Hs.
    pose proof (processCursorResults_nextCursor Date_toString results limit
                  cursorField) as Hn.
    fold r in Hn. rewrite Hn in Hs.
    destruct (cr_hasMore r); [|done]. split; [done|].
    intros Hnil. by rewrite Hnil in Hs.
Qed.

Lemma processCursorResults_trims_witness :
  cr_hasMore (processCursorResults iso_date rows_without_id (Fin 1) None) = true ∧
  Z.of_nat (length (cr_data
    (processCursorResults iso_date rows_without_id (Fin 1) None))) = 1.
Proof.
  split; [reflexivity|].
  destruct (processCursorResults_trims iso_date rows_without_id (Fin 1) None)
    as (_ & _ & H & _).
  apply H; [reflexivity | lia | reflexivity].
Defined.

(** ** query-builder.ts: the cursor builder *)

Lemma getCursorPagination_entries
    (cursor cursorField : option string) (limit : option number) (k : string) :
  getCursorPagination cursor cursorField limit !! k =
    if decide (k = "take")
    then Some (VNum (num_add
                 (Math_min (Math_max (Fin 1) (default DEFAULT_LIMIT limit)) MAX_LIMIT)
                 (Fin 1)))
    else match cursor with
         | Some c =>
             if is_empty_string c then None
             else if decide (k = "skip") then Some (VNum (Fin 1))
             else if decide (k = "cursor")
                  then Some (VObj {[ default "id" cursorField := VStr c ]})
                  else None
         | None => None
         end.
Proof.
  unfold getCursorPagination, spread2, js_and. cbv zeta.
  destruct cursor as [c|]; cbn [from_option truthy].
  - destruct (is_empty_string c); cbn [negb spread_props].
    + rewrite lookup_union_r by apply lookup_empty.
      rewrite lookup_singleton. by repeat case_decide.
    + rewrite lookup_union, lookup_insert, lookup_singleton, lookup_singleton.
      repeat case_decide; simplify_eq; done.
  - cbn [spread_props]. rewrite lookup_union_r by apply lookup_empty.
    rewrite lookup_singleton. by repeat case_decide.
Qed.

Lemma getCursorPagination_no_other
    (cursor cursorField : option string) (limit : option number) (k : string) :
  k ≠ "take" → k ≠ "skip" → k ≠ "cursor" →
  getCursorPagination cursor cursorField limit !! k = None.
Proof.
  intros H1 H2 H3. rewrite getCursorPagination_entries.
  rewrite decide_False by done.
  destruct cursor as [c|]; [|done].
  destruct (is_empty_string c); [done|].
  by rewrite !decide_False by done.
Qed.

Lemma optional_prop_lookup name v :
  optional_prop name v !! name = if truthy v then Some v else None.
Proof.
  unfold optional_prop, js_and. destruct (truthy v) eqn:E.
  - cbn [spread_props]. apply lookup_singleton_eq.
  - by destruct v.
Qed.


(** What [cursorQueryBuilder] does: one call, whose answer decides the
    result. *)
Lemma cursorQueryBuilder_run
    (Date_toString : value -> string) (model : Model) (args : QueryArgs) :
  let limit := default (Fin 10) (limit args) in
  let cf := default "id" (cursorField args) in
  ∃ fa : obj,
    run (cursorQueryBuilder Date_toString model args) =
      ([{| call_op := OpFindMany; call_args := fa |}],
       match outcome (findMany model fa) with
       | Fulfilled rows =>
           let r := processCursorResults Date_toString rows limit (Some cf) in
           Fulfilled {| cqb_data := cr_data r;
                        cqb_meta := {| meta_nextCursor := cr_nextCursor r;
                                       meta_hasMore := cr_hasMore r;
                                       meta_cursorLimit := limit |} |}
       | Rejected e => Rejected e
       end) ∧
    fa !! "where" = Some (VObj (build_where args)) ∧
    (∀ k, k = "take" ∨ k = "skip" ∨ k = "cursor" →
          fa !! k = getCursorPagination (cursor args) (Some cf) (Some limit) !! k) ∧
    fa !! "include" = (if truthy (include args) then Some (include args) else None) ∧
    fa !! "select" = (if truthy (select args) then Some (select args) else None).
Proof.
  intros limit cf.
  unfold run, cursorQueryBuilder. cbv zeta.
  unfold async_bind, call_findMany, await. cbn [fst snd app].
  fold limit cf.
  match goal with
  | |- context [findMany model ?a] => set (fa := a)
  end.
  exists fa. split; [by destruct (outcome (findMany model fa))|].
  subst fa. split; [|split; [|split]].
  - unfold spread2;
    repeat (rewrite lookup_union_r by (by apply optional_prop_lookup_ne)).
    rewrite lookup_union_r by (by apply lookup_singleton_ne).
    rewrite lookup_union_r by (by apply getCursorPagination_no_other).
    apply lookup_singleton_eq.
  - intros k [-> | [-> | ->]]; unfold spread2;
      repeat (rewrite lookup_union_r by (by apply optional_prop_lookup_ne));
      rewrite lookup_union_r by (by apply lookup_singleton_ne);
      by apply lookup_union_l, lookup_singleton_ne.
  - unfold spread2.
    rewrite lookup_union_r by (by apply optional_prop_lookup_ne).
    rewrite lookup_union, optional_prop_lookup.
    rewrite lookup_union_r by (by apply lookup_singleton_ne).
    rewrite lookup_union_r by (by apply getCursorPagination_no_other).
    rewrite lookup_singleton_ne by done.
    by destruct (truthy (include args)).
  - unfold spread2.
    rewrite lookup_union, optional_prop_lookup.
    rewrite lookup_union_r by (by apply optional_prop_lookup_ne).
    rewrite lookup_union_r by (by apply lookup_singleton_ne).
    rewrite lookup_union_r by (by apply getCursorPagination_no_other).
    rewrite lookup_singleton_ne by done.
    by destruct (truthy (select args)).
Qed.

(** The one [findMany] call of [cursorQueryBuilder] carries the
    assembled [where], the [take], [skip] and [cursor] entries exactly
    as [getCursorPagination] gives them, and [include] and [select]
    only when they are truthy: no option overwrites another. *)
Theorem cursorQueryBuilder_call_args
    (Date_toString : value -> string) (model : Model) (args : QueryArgs) :
  let limit := default (Fin 10) (limit args) in
  let cf := default "id" (cursorField args) in
  ∃ c, (run (cursorQueryBuilder Date_toString model args)).1 = [c] ∧
       call_op c = OpFindMany ∧
       call_args c !! "where" = Some (VObj (build_where args)) ∧
       (∀ k, k = "take" ∨ k = "skip" ∨ k = "cursor" →
             call_args c !! k
             = getCursorPagination (cursor args) (Some cf) (Some limit) !! k) ∧
       call_args c !! "include"
       = (if truthy (include args) then Some (include args) else None) ∧
       call_args c !! "select"
       = (if truthy (select args) then Some (select args) else None).
Proof.
  intros limit cf.
  destruct (cursorQueryBuilder_run Date_toString model args)
    as (fa & Hrun & Hw & Hp & Hi & Hs).
  exists {| call_op := OpFindMany; call_args := fa |}.
  rewrite Hrun. by repeat split.
Qed.

(** Within the cap the cursor builder pages as intended: for a limit
    [l] in [1, 100] it asks for [l + 1] rows, and when the data layer
    answers with at most that many, the data is the first [l] rows,
    [hasMore] tells whether the extra row came back, and [nextCursor]
    is read off the last row kept. *)
Theorem cursorQueryBuilder_page
    (Date_toString : value -> string) (model : Model) (args : QueryArgs) (l : Z) :
  limit args = Some (Fin l) → 1 ≤ l ≤ 100 →
  let cf := default "id" (cursorField args) in
  ∃ c, (run (cursorQueryBuilder Date_toString model args)).1 = [c] ∧
       call_args c !! "take" = Some (VNum (Fin (l + 1))) ∧
       ∀ rows,
         outcome (findMany model (call_args c)) = Fulfilled rows →
         Z.of_nat (length rows) ≤ l + 1 →
         ∃ r, (run (cursorQueryBuilder Date_toString model args)).2 = Fulfilled r ∧
              cqb_data r = take (Z.to_nat l) rows ∧
              meta_hasMore (cqb_meta r) = bool_decide (Z.of_nat (length rows) = l + 1) ∧
              meta_nextCursor (cqb_meta r) =
                (if meta_hasMore (cqb_meta r)
                 then last (cqb_data r) ≫= cursor_of Date_toString cf
                 else None).
Proof.
  intros Hl Hr cf.
  destruct (cursorQueryBuilder_run Date_toString model args)
    as (fa & Hrun & _ & Hp & _).
  rewrite Hl in Hrun, Hp. cbn [default from_option id] in Hrun, Hp. fold cf in Hrun, Hp.
  exists {| call_op := OpFindMany; call_args := fa |}.
  rewrite Hrun. cbn [fst snd call_args].
  split; [done|]. split.
  - rewrite Hp by auto. rewrite getCursorPagination_entries, decide_True by done.
    cbn [default from_option id]. rewrite clamp_take by done.
    simpl. do 3 f_equal. lia.
  - intros rows -> Hlen. eexists. split; [reflexivity|].
    cbn [cqb_data cqb_meta meta_hasMore meta_nextCursor].
    set (r := processCursorResults Date_toString rows (Fin l) (Some cf)).
    pose proof (processCursorResults_nextCursor Date_toString rows (Fin l) (Some cf))
      as Hn.
    fold r in Hn. cbn [default from_option id] in Hn.
    assert (Hm : cr_hasMore r = bool_decide (Z.of_nat (length rows) = l + 1)).
    { change (cr_hasMore r) with (negb (Z.of_nat (length rows) <=? l)).
      case_bool_decide; [apply negb_true_iff, Z.leb_gt | apply negb_false_iff, Z.leb_le];
        lia. }
    split; [|split; [done | exact Hn]].
    change (cr_data r) with (if cr_hasMore r then slice0 rows (Fin l) else rows).
    rewrite Hm. case_bool_decide as E.
    + unfold slice0. destruct (Z.ltb_spec l 0); [lia | done].
    + symmetry. apply take_ge. lia.
Qed.

Lemma cursorQueryBuilder_page_witness :
  limit live_args = Some (Fin 2) ∧ 1 ≤ 2 ≤ 100 ∧
  ∃ c, (run (cursorQueryBuilder iso_date three_row_model live_args)).1 = [c] ∧
       call_args c !! "take" = Some (VNum (Fin 3)).
Proof.
  split; [reflexivity|]. split; [lia|].
  destruct (cursorQueryBuilder_page iso_date three_row_model live_args 2)
    as (c & Hc & Ht & _); [reflexivity | lia |].
  exists c. split; [exact Hc | exact Ht].
Defined.

(** Outside the cap the two halves of the cursor builder disagree: the
    query asks for the clamped limit plus one, the trimming uses the
    limit as given.  With a limit above 100 it asks for 101 rows, and
    whatever comes back within that is returned whole with [hasMore]
    false and no cursor.  With a limit of 0 it asks for 2 rows, and any
    row that comes back is dropped: no data, [hasMore] true, no cursor. *)
Theorem cursorQueryBuilder_limit_out_of_range
    (Date_toString : value -> string) (model : Model) (args : QueryArgs) :
  (∀ l, limit args = Some (Fin l) → 100 < l →
     ∃ c, (run (cursorQueryBuilder Date_toString model args)).1 = [c] ∧
          call_args c !! "take" = Some (VNum (Fin 101)) ∧
          ∀ rows,
            outcome (findMany model (call_args c)) = Fulfilled rows →
            Z.of_nat (length rows) ≤ 101 →
            (run (cursorQueryBuilder Date_toString model args)).2 =
              Fulfilled {| cqb_data := rows;
                           cqb_meta := {| meta_nextCursor := None;
                                          meta_hasMore := false;
                                          meta_cursorLimit := Fin l |} |}) ∧
  (limit args = Some (Fin 0) →
     ∃ c, (run (cursorQueryBuilder Date_toString model args)).1 = [c] ∧
          call_args c !! "take" = Some (VNum (Fin 2)) ∧
          ∀ rows,
            outcome (findMany model (call_args c)) = Fulfilled rows →
            rows ≠ [] →
            (run (cursorQueryBuilder Date_toString model args)).2 =
              Fulfilled {| cqb_data := [];
                           cqb_meta := {| meta_nextCursor := None;
                                          meta_hasMore := true;
                                          meta_cursorLimit := Fin 0 |} |}).
Proof.
  destruct (cursorQueryBuilder_run Date_toString model args)
    as (fa & Hrun & _ & Hp & _).
  split.
  - intros l Hl Hlt.
    rewrite Hl in Hrun, Hp. cbn [default from_option id] in Hrun, Hp.
    exists {| call_op := OpFindMany; call_args := fa |}.
    rewrite Hrun. cbn [fst snd call_args].
    split; [done|]. split.
    + rewrite Hp by auto. rewrite getCursorPagination_entries, decide_True by done.
      cbn [default from_option id]. rewrite clamp_take by done.
      simpl. do 3 f_equal. lia.
    + intros rows -> Hlen. cbv zeta.
      pose proof (processCursorResults_nextCursor Date_toString rows (Fin l)
                    (Some (default "id" (cursorField args)))) as Hn.
      cbv zeta in Hn.
      set (r := processCursorResults Date_toString rows (Fin l) _) in *.
      assert (Hm : cr_hasMore r = false).
      { change (cr_hasMore r) with (negb (Z.of_nat (length rows) <=? l)).
        apply negb_false_iff, Z.leb_le. lia. }
      rewrite Hn, Hm.
      change (cr_data r) with (if cr_hasMore r then slice0 rows (Fin l) else rows).
      by rewrite Hm.
  - intros Hl.
    rewrite Hl in Hrun, Hp. cbn [default from_option id] in Hrun, Hp.
    exists {| call_op := OpFindMany; call_args := fa |}.
    rewrite Hrun. cbn [fst snd call_args].
    split; [done|]. split.
    + rewrite Hp by auto. by rewrite getCursorPagination_entries, decide_True by done.
    + intros rows -> Hne. cbv zeta.
      pose proof (processCursorResults_nextCursor Date_toString rows (Fin 0)
                    (Some (default "id" (cursorField args)))) as Hn.
      cbv zeta in Hn.
      set (r := processCursorResults Date_toString rows (Fin 0) _) in *.
      assert (Hm : cr_hasMore r = true).
      { change (cr_hasMore r) with (negb (Z.of_nat (length rows) <=? 0)).
        apply negb_true_iff, Z.leb_gt. destruct rows; [done | simpl; lia]. }
      assert (Hd : cr_data r = []).
      { change (cr_data r) with (if cr_hasMore r then slice0 rows (Fin 0) else rows).
        by rewrite Hm. }
      by rewrite Hn, Hm, Hd.
Qed.

Lemma cursorQueryBuilder_limit_out_of_range_witness :
  limit wide_args = Some (Fin 150) ∧ 100 < 150 ∧
  (run (cursorQueryBuilder iso_date three_row_model wide_args)).2 =
    Fulfilled {| cqb_data := [ {[ "id" := VStr "a" ]}; {[ "id" := VStr "b" ]};
                               {[ "id" := VStr "c" ]} ];
                 cqb_meta := {| meta_nextCursor := None;
                                meta_hasMore := false;
                                meta_cursorLimit := Fin 150 |} |}.
Proof.
  split; [reflexivity|]. split; [lia|].
  destruct (cursorQueryBuilder_limit_out_of_range iso_date three_row_model wide_args)
    as [H _].
  destruct (H 150) as (c & Hc & _ & Hrows); [reflexivity | lia |].
  apply Hrows; [reflexivity | simpl; lia].
Defined.

(** ** search.ts *)

Lemma trimStart_no_leading s : starts_with_white_space (trimStart s) = false.
Proof.
  induction s as [|a s IH]; [done|]. simpl.
  destruct (is_white_space a) eqn:E; [done|]. simpl. by rewrite E.
Qed.

Lemma ends_with_white_space_cons a s :
  ends_with_white_space (String a s)
  = if is_empty_string s then is_white_space a else ends_with_white_space s.
Proof. by destruct s. Qed.

Lemma trimEnd_no_trailing t : ends_with_white_space (trimEnd t) = false.
Proof.
  induction t as [|a t IH]; [done|]. cbn [trimEnd].
  destruct (is_white_space a && is_empty_string (trimEnd t)) eqn:E; [done|].
  rewrite ends_with_white_space_cons.
  destruct (is_empty_string (trimEnd t)); [|done].
  by rewrite andb_true_r in E.
Qed.

Lemma trimEnd_keeps_start t :
  starts_with_white_space t = false → starts_with_white_space (trimEnd t) = false.
Proof.
  destruct t as [|a t]; [done|]. cbn [starts_with_white_space trimEnd].
  intros E. rewrite E. cbn [andb]. exact E.
Qed.

Lemma trimStart_fixed s : starts_with_white_space s = false → trimStart s = s.
Proof. destruct s; [done|]. simpl. by intros ->. Qed.

Lemma trimEnd_fixed t : ends_with_white_space t = false → trimEnd t = t.
Proof.
  induction t as [|a t IH]; [done|]. rewrite ends_with_white_space_cons.
  cbn [trimEnd]. destruct t as [|b t].
  - simpl. by intros ->.
  - cbn [is_empty_string]. intros H. rewrite (IH H).
    by rewrite andb_false_r.
Qed.

Lemma trim_trimmed s :
  starts_with_white_space (trim s) = false ∧
  ends_with_white_space (trim s) = false ∧
  trim (trim s) = trim s.
Proof.
  assert (H1 : starts_with_white_space (trim s) = false)
    by apply trimEnd_keeps_start, trimStart_no_leading.
  assert (H2 : ends_with_white_space (trim s) = false)
    by apply trimEnd_no_trailing.
  repeat split; try done.
  unfold trim at 1. by rewrite (trimStart_fixed _ H1), (trimEnd_fixed _ H2).
Qed.

(** Whatever [buildSearchQuery] returns is well formed: an [OR] list
    with one condition per field, never empty, on a term that is not
    empty, neither starts nor ends with white space, and is left alone
    by another trim. *)
Theorem buildSearchQuery_well_formed
    (search : option string) (fields : list string) (o : obj) :
  buildSearchQuery search (Some fields) = Some o →
  ∃ t, o = {[ "OR" := VArr (map (containsCondition t) fields) ]} ∧
       fields ≠ [] ∧ t ≠ "" ∧
       starts_with_white_space t = false ∧
       ends_with_white_space t = false ∧
       trim t = t.
Proof.
  unfold buildSearchQuery. cbn [default from_option id].
  destruct search as [s|]; [|done].
  rewrite trim_empty, length_eqb_0.
  destruct (is_empty_string s); [done|]. cbn [orb].
  destruct (all_white_space s) eqn:Ew; [done|]. cbn [orb].
  case_bool_decide as Hf; [done|].
  intros [= <-]. exists (trim s).
  destruct (trim_trimmed s) as (H1 & H2 & H3).
  repeat split; try done.
  intros Ht. pose proof (trim_empty s) as Hte. by rewrite Ht, Ew in Hte.
Qed.

Lemma buildSearchQuery_well_formed_witness :
  ∃ t, ({[ "OR" := VArr [containsCondition "John Doe" "name"] ]} : obj)
       = {[ "OR" := VArr (map (containsCondition t) ["name"]) ]} ∧
       ["name"] ≠ [] ∧ t ≠ "" ∧
       starts_with_white_space t = false ∧
       ends_with_white_space t = false ∧
       trim t = t.
Proof.
  apply (buildSearchQuery_well_formed (Some "  John Doe ") ["name"]).
  reflexivity.
Defined.

(** [buildNestedSearchQuery] returns [undefined] exactly when the term
    is missing or all white space or there is no field configuration;
    otherwise an [OR] list with one condition per configuration, in
    order, on the trimmed term: the plain condition for a configuration
    whose relation is missing or empty, the same condition one level
    under the relation name otherwise. *)
Theorem buildNestedSearchQuery_spec
    (search : option string) (configs : list FieldConfig) :
  (buildNestedSearchQuery search (Some configs) = None ↔
     search = None ∨
     (∃ s, search = Some s ∧ all_white_space s = true) ∨
     configs = []) ∧
  (∀ s, search = Some s → all_white_space s = false → configs ≠ [] →
     buildNestedSearchQuery search (Some configs) =
       Some {[ "OR" := VArr (map (fun c =>
                  match cfg_relation c with
                  | Some (String a r) =>
                      VObj {[ String a r := containsCondition (trim s) (cfg_field c) ]}
                  | _ => containsCondition (trim s) (cfg_field c)
                  end) configs) ]}).
Proof.
  assert (Hcond : ∀ t c, nestedCondition t c =
            match cfg_relation c with
            | Some (String a r) => VObj {[ String a r := containsCondition t (cfg_field c) ]}
            | _ => containsCondition t (cfg_field c)
            end).
  { intros t [f [[|a r]|]]; reflexivity. }
  unfold buildNestedSearchQuery. cbn [default from_option id].
  split.
  - destruct search as [s|]; [|by intuition].
    rewrite trim_empty, length_eqb_0.
    destruct (all_white_space s) eqn:Ew.
    + rewrite orb_true_r. cbn [orb]. split; [|done]. intros _. right. left. by eexists.
    + assert (is_empty_string s = false) as -> by (by destruct s).
      cbn [orb]. case_bool_decide as Hc.
      * split; [|done]. intros _. by repeat right.
      * split; [done|]. intros [?|[(s' & Hs' & Hw)|?]]; try done.
        simplify_eq. congruence.
  - intros s -> Hw Hc. rewrite trim_empty, Hw, length_eqb_0.
    assert (is_empty_string s = false) as -> by (by destruct s).
    rewrite bool_decide_false by done. cbn [orb].
    do 3 f_equal. apply map_ext. intros c. apply Hcond.
Qed.

Lemma buildNestedSearchQuery_spec_witness :
  all_white_space "test" = false ∧
  buildNestedSearchQuery (Some "test")
    (Some [ {| cfg_field := "email"; cfg_relation := None |};
            {| cfg_field := "email"; cfg_relation := Some "user" |} ]) =
    Some {[ "OR" := VArr [ containsCondition "test" "email";
                           VObj {[ "user" := containsCondition "test" "email" ]} ] ]}.
Proof.
  split; [reflexivity|].
  destruct (buildNestedSearchQuery_spec (Some "test")
    [ {| cfg_field := "email"; cfg_relation := None |};
      {| cfg_field := "email"; cfg_relation := Some "user" |} ]) as [_ H].
  apply (H "test"); [reflexivity | reflexivity | discriminate].
Defined.

(** On configurations without a relation, [buildNestedSearchQuery] is
    [buildSearchQuery] on the field names. *)
Theorem buildNestedSearchQuery_bare_fields
    (search : option string) (fields : list string) :
  buildNestedSearchQuery search (Some (map bare_field fields))
  = buildSearchQuery search (Some fields).
Proof.
  unfold buildNestedSearchQuery, buildSearchQuery. cbn [default from_option id].
  destruct search as [s|]; [|done].
  rewrite length_map, map_map. reflexivity.
Qed.

(** [buildPrefixSearch] answers exactly when [buildSearchQuery] does,
    with the same fields in the same order and the same trimmed term,
    under [startsWith] instead of [contains]. *)
Theorem buildPrefixSearch_like_search
    (prefix : option string) (fields : list string) :
  match buildSearchQuery prefix (Some fields) with
  | None => buildPrefixSearch prefix (Some fields) = None
  | Some _ =>
      ∃ s, prefix = Some s ∧
           buildSearchQuery prefix (Some fields)
           = Some {[ "OR" := VArr (map (containsCondition (trim s)) fields) ]} ∧
           buildPrefixSearch prefix (Some fields)
           = Some {[ "OR" := VArr (map (startsWithCondition (trim s)) fields) ]}
  end.
Proof.
  unfold buildSearchQuery, buildPrefixSearch. cbn [default from_option id].
  destruct prefix as [s|]; [|done].
  destruct (is_empty_string s || is_empty_string (trim s)
            || (Z.of_nat (length fields) =? 0)); [done|].
  by exists s.
Qed.

(** [buildExactSearch] does not trim: a value of white space only, on
    which [buildSearchQuery] and [buildPrefixSearch] return
    [undefined], is matched as it stands.  It returns [undefined] only
    for a missing or empty value or field. *)
Theorem buildExactSearch_keeps_white_space (value field : option string) :
  (buildExactSearch value field = None ↔
     value = None ∨ value = Some "" ∨ field = None ∨ field = Some "") ∧
  (∀ v f, value = Some v → field = Some f → v ≠ "" → f ≠ "" →
     buildExactSearch value field = Some {[ f := VStr v ]} ∧
     (all_white_space v = true →
      buildSearchQuery value (Some [f]) = None ∧
      buildPrefixSearch value (Some [f]) = None)).
Proof.
  unfold buildExactSearch. split.
  - destruct value as [[|a v]|], field as [[|b f]|]; cbn; intuition congruence.
  - intros v f -> -> Hv Hf. cbn [from_option truthy default id].
    apply is_empty_string_false in Hv as Hv'. apply is_empty_string_false in Hf as Hf'.
    rewrite Hv', Hf'. cbn. split; [done|].
    intros Hw. unfold buildSearchQuery, buildPrefixSearch.
    cbn [default from_option id]. by rewrite trim_empty, Hw, !orb_true_r.
Qed.

Lemma buildExactSearch_keeps_white_space_witness :
  " " ≠ "" ∧ "slug" ≠ "" ∧
  buildExactSearch (Some " ") (Some "slug") = Some {[ "slug" := VStr " " ]}.
Proof.
  split; [discriminate|]. split; [discriminate|].
  destruct (buildExactSearch_keeps_white_space (Some " ") (Some "slug")) as [_ H].
  destruct (H " " "slug") as [E _]; [reflexivity | reflexivity | discriminate | discriminate |].
  exact E.
Defined.

(** ** filters.ts *)

Lemma buildFilters_omap (filters : obj) :
  buildFilters filters = omap filter_clause (delete "__proto__" filters).
Proof.
  apply map_eq. intros k. rewrite buildFilters_lookup, lookup_omap.
  case_bool_decide as Hk.
  - subst k. by rewrite lookup_delete_eq.
  - by rewrite lookup_delete_ne.
Qed.

(** Setting a key of the filter map, other than [__proto__], acts on
    that key alone: a value that is dropped removes the key's
    condition, any other value replaces it, and the conditions of the
    other keys stay. *)
Theorem buildFilters_insert (filters : obj) (key : string) (v : value) :
  key ≠ "__proto__" →
  buildFilters (<[ key := v ]> filters) =
    match filter_clause v with
    | Some c => <[ key := c ]> (buildFilters filters)
    | None => delete key (buildFilters filters)
    end.
Proof.
  intros Hk. rewrite !buildFilters_omap, delete_insert_ne by done.
  rewrite omap_insert. by destruct (filter_clause v).
Qed.

Lemma buildFilters_insert_witness :
  "status" ≠ "__proto__" ∧
  buildFilters (<[ "status" := VArr [] ]>
                  {[ "status" := VStr "PAID"; "year" := VNum (Fin 2025) ]})
  = {[ "year" := VNum (Fin 2025) ]}.
Proof.
  split; [done|].
  by rewrite (buildFilters_insert _ "status" (VArr [])).
Defined.

(** Filter maps without a common key can be built apart: the build of
    their merge is the merge of their builds. *)
Theorem buildFilters_disjoint_merge (a b : obj) :
  a ##ₘ b →
  buildFilters (combineFilters [a; b])
  = combineFilters [buildFilters a; buildFilters b].
Proof.
  intros Hd. unfold combineFilters, spread2. cbn [foldl].
  rewrite !(right_id_L ∅ (∪)). rewrite !buildFilters_omap, delete_union.
  apply map_omap_union.
  by apply map_disjoint_delete_l, map_disjoint_delete_r.
Qed.

Lemma buildFilters_disjoint_merge_witness :
  ({[ "status" := VStr "PAID" ]} : obj) ##ₘ {[ "deletedAt" := VNull ]} ∧
  buildFilters (combineFilters [ {[ "status" := VStr "PAID" ]};
                                 {[ "deletedAt" := VNull ]} ])
  = combineFilters [ buildFilters {[ "status" := VStr "PAID" ]};
                     buildFilters {[ "deletedAt" := VNull ]} ].
Proof.
  assert (H : ({[ "status" := VStr "PAID" ]} : obj) ##ₘ {[ "deletedAt" := VNull ]})
    by (by apply map_disjoint_singleton_l_2).
  split; [exact H|]. by apply buildFilters_disjoint_merge.
Defined.

(** [buildFilters] never invents a key and never lets an empty value
    through: every entry of the result comes from the entry of the
    filter map under the same key, and is neither [undefined], [null],
    the empty string nor a bare array. *)
Theorem buildFilters_no_empty_values (filters : obj) (key : string) (c : value) :
  buildFilters filters !! key = Some c →
  (∃ v, filters !! key = Some v ∧ filter_clause v = Some c) ∧
  c ≠ VUndefined ∧ c ≠ VNull ∧ c ≠ VStr "" ∧ Array_isArray c = false.
Proof.
  rewrite buildFilters_lookup. case_bool_decide; [done|].
  destruct (filters !! key) as [v|]; [|done]. cbn [mbind option_bind].
  intros Hc. split; [by exists v|].
  destruct v as [| | b | n | [|a s] | src | [|x l] | o]; cbn in Hc; try done;
    try (by injection Hc as <-).
  unfold number_range, date_range in Hc.
  destruct (is_number _ || is_number _);
    [|destruct (is_string_or_date _ || is_string_or_date _)];
    by injection Hc as <-.
Qed.

Lemma buildFilters_no_empty_values_witness :
  ∃ v, ({[ "tags" := VArr [VStr "a"] ]} : obj) !! "tags" = Some v ∧
       filter_clause v = Some (VObj {[ "in" := VArr [VStr "a"] ]}).
Proof.
  apply (buildFilters_no_empty_values {[ "tags" := VArr [VStr "a"] ]} "tags").
  reflexivity.
Defined.

Lemma range_has_no_bounds_left (g l : bool) (x y : value) (k : string) :
  k ≠ "gte" → k ≠ "lte" →
  obj_get (bound "gte" g x ∪ bound "lte" l y) k = VUndefined.
Proof.
  intros H1 H2. unfold obj_get, bound.
  rewrite lookup_union.
  destruct g, l; by rewrite ?lookup_singleton_ne, ?lookup_empty by done.
Qed.

Lemma filter_clause_fixed (v c : value) :
  filter_clause v = Some c → filter_clause c = Some c.
Proof.
  destruct v as [| | b | n | [|a s] | src | [|x l] | o]; cbn; try done;
    try (by intros [= <-]).
  destruct (is_number _ || is_number _) eqn:En;
    [|destruct (is_string_or_date _ || is_string_or_date _) eqn:Ed].
  - intros [= <-]. unfold number_range. cbn [filter_clause].
    by rewrite !range_has_no_bounds_left by done.
  - intros [= <-]. unfold date_range. cbn [filter_clause].
    by rewrite !range_has_no_bounds_left by done.
  - intros [= <-]. cbn [filter_clause]. by rewrite En, Ed.
Qed.

(** [buildFilters] is idempotent on a filter map without a
    [__proto__] key (with one, the first pass can replace the prototype
    of its result, whose properties the second pass would enumerate):
    building again from a built [where] changes nothing, so a condition
    that is already in its final form can be passed as a filter. *)
Theorem buildFilters_idempotent (filters : obj) :
  filters !! "__proto__" = None →
  buildFilters (buildFilters filters) = buildFilters filters.
Proof.
  intros Hp. apply map_eq. intros k.
  rewrite (buildFilters_lookup (buildFilters filters)), buildFilters_lookup.
  case_bool_decide; [done|].
  destruct (filters !! k) as [v|]; [|done]. cbn [mbind option_bind].
  destruct (filter_clause v) as [c|] eqn:E; [|done].
  cbn [mbind option_bind]. by apply filter_clause_fixed in E.
Qed.

Lemma buildFilters_idempotent_witness :
  ({[ "amount" := VObj {[ "from" := VNum (Fin 10) ]};
      "tags" := VArr [VStr "a"] ]} : obj) !! "__proto__" = None ∧
  buildFilters
    {[ "amount" := VObj {[ "gte" := VNum (Fin 10) ]};
       "tags" := VObj {[ "in" := VArr [VStr "a"] ]} ]}
  = {[ "amount" := VObj {[ "gte" := VNum (Fin 10) ]};
       "tags" := VObj {[ "in" := VArr [VStr "a"] ]} ]}.
Proof.
  split; [done|].
  exact (buildFilters_idempotent
           {[ "amount" := VObj {[ "from" := VNum (Fin 10) ]};
              "tags" := VArr [VStr "a"] ]} eq_refl).
Defined.

Lemma buildFilters_of_literals (filters : obj) :
  filters !! "__proto__" = None →
  map_Forall (fun _ v => is_literal v = true) filters →
  buildFilters filters = filters.
Proof.
  intros Hp Hl. apply map_eq. intros k.
  rewrite buildFilters_lookup. case_bool_decide as Hk; [by subst k|].
  destruct (filters !! k) as [v|] eqn:E; [|done]. cbn [mbind option_bind].
  specialize (Hl k v E). cbn beta in Hl.
  destruct v as [| | b | n | [|a s] | src | l | o]; done.
Qed.

(** Literal values are kept as they are, falsy ones included: a filter
    map without a [__proto__] key whose values are non-empty strings,
    numbers ([0] and [NaN] too), booleans ([false] too) and dates is
    its own [where]. *)
Theorem buildFilters_literals (filters : obj) :
  filters !! "__proto__" = None →
  map_Forall (fun _ v => is_literal v = true) filters →
  buildFilters filters = filters.
Proof. apply buildFilters_of_literals. Qed.

Lemma buildFilters_literals_witness :
  ({[ "isActive" := VBool false; "retries" := VNum (Fin 0) ]} : obj)
    !! "__proto__" = None ∧
  map_Forall (fun _ v => is_literal v = true)
    ({[ "isActive" := VBool false; "retries" := VNum (Fin 0) ]} : obj) ∧
  buildFilters {[ "isActive" := VBool false; "retries" := VNum (Fin 0) ]}
  = {[ "isActive" := VBool false; "retries" := VNum (Fin 0) ]}.
Proof.
  assert (H : map_Forall (fun _ v => is_literal v = true)
    ({[ "isActive" := VBool false; "retries" := VNum (Fin 0) ]} : obj)).
  { apply map_Forall_insert_2; [done|]. by apply map_Forall_singleton. }
  split; [done|]. split; [exact H|]. by apply buildFilters_literals.
Defined.

Lemma relation_clause_step (relation : string) (conditions : value) (where_ : obj) :
  buildRelationFilters_step relation conditions where_
  = match relation_clause conditions with
    | Some c => obj_set where_ relation c
    | None => where_
    end.
Proof.
  unfold buildRelationFilters_step.
  destruct conditions as [| | b | [| |z|] | s | src | l | o]; cbn; try done.
  - by destruct b.
  - by destruct (negb (z =? 0)).
  - by destruct (negb (is_empty_string s)).
Qed.

(** The own properties of the result, name by name. *)
Lemma buildRelationFilters_lookup (relationFilters : obj) (relation : string) :
  buildRelationFilters relationFilters !! relation
  = if bool_decide (relation = "__proto__") then None
    else relationFilters !! relation ≫= relation_clause.
Proof.
  unfold buildRelationFilters.
  apply (map_fold_weak_ind
           (fun (r : obj) (m : obj) =>
              r !! relation = if bool_decide (relation = "__proto__") then None
                              else m !! relation ≫= relation_clause)).
  - rewrite !lookup_empty. by case_bool_decide.
  - intros i x m r Hi IH. rewrite relation_clause_step.
    destruct (decide (relation = "__proto__")) as [Hp|Hp].
    + rewrite (bool_decide_true _ Hp) in *.
      destruct (relation_clause x) as [c|]; [|done].
      rewrite obj_set_lookup, bool_decide_false; [done|].
      intros [-> ?]. done.
    + rewrite (bool_decide_false _ Hp) in *.
      destruct (decide (i = relation)) as [->|Hne].
      * rewrite lookup_insert_eq. cbn [mbind option_bind].
        destruct (relation_clause x) as [c|].
        -- by rewrite obj_set_lookup, bool_decide_true.
        -- by rewrite IH, Hi.
      * rewrite (lookup_insert_ne m) by done.
        destruct (relation_clause x) as [c|]; [|done].
        rewrite obj_set_lookup, bool_decide_false; [done|]. by intros [? _].
Qed.

(** [buildRelationFilters] keeps a relation, other than one named
    [__proto__], exactly when its value is of type object and not
    [null], and then always: the nested conditions are those that
    [buildFilters] makes of the properties the value enumerates (those
    of a plain object, the indices of an array, none of a date), and a
    relation all of whose conditions are dropped is still emitted, with
    the empty condition [{}].  Strings, numbers, booleans, [null] and
    [undefined] are skipped. *)
Theorem buildRelationFilters_spec (relationFilters : obj) (relation : string) :
  relation ≠ "__proto__" →
  (∀ v, relationFilters !! relation = Some v → typeof v = TObject → v ≠ VNull →
     buildRelationFilters relationFilters !! relation
     = Some (VObj (buildFilters (enumerable_props v)))) ∧
  (∀ o : obj, relationFilters !! relation = Some (VObj o) →
     buildRelationFilters relationFilters !! relation = Some (VObj (buildFilters o)) ∧
     (map_Forall (fun _ v => filter_clause v = None) o →
      buildRelationFilters relationFilters !! relation = Some (VObj ∅))) ∧
  (∀ src, relationFilters !! relation = Some (VDate src) →
     buildRelationFilters relationFilters !! relation = Some (VObj ∅)) ∧
  (∀ v, relationFilters !! relation = Some v → typeof v ≠ TObject ∨ v = VNull →
     buildRelationFilters relationFilters !! relation = None) ∧
  (relationFilters !! relation = None →
   buildRelationFilters relationFilters !! relation = None).
Proof.
  intros Hr. rewrite buildRelationFilters_lookup, bool_decide_false by done.
  split; [|split; [|split; [|split]]].
  - intros v -> Hv Hn. by destruct v.
  - intros o ->. cbn. split; [done|]. intros Hall. do 2 f_equal.
    apply map_eq. intros k. rewrite buildFilters_lookup, lookup_empty.
    case_bool_decide as Hk; [done|].
    destruct (o !! k) as [v|] eqn:E; [|done].
    exact (Hall k v E).
  - by intros src ->.
  - intros v -> [Hv | ->]; [|done]. by destruct v.
  - by intros ->.
Qed.

Lemma buildRelationFilters_spec_witness :
  "user" ≠ "__proto__" ∧
  buildRelationFilters {[ "user" := VObj {[ "name" := VNull ]} ]} !! "user"
  = Some (VObj ∅).
Proof.
  split; [done|].
  destruct (buildRelationFilters_spec
              {[ "user" := VObj {[ "name" := VNull ]} ]} "user") as (_ & H & _);
    [done|].
  destruct (H {[ "name" := VNull ]}) as [_ H']; [reflexivity|].
  apply H'. by apply map_Forall_singleton.
Defined.

Example buildRelationFilters_array_and_date :
  buildRelationFilters
    {[ "tags" := VArr [VStr "a"; VStr ""]; "since" := VDate (VStr "2025-01-01");
       "__proto__" := VObj {[ "isActive" := VBool true ]} ]}
  = {[ "tags" := VObj {[ "0" := VStr "a" ]}; "since" := VObj ∅ ]}.
Proof. by vm_compute. Qed.

(** [buildNotFilters] never emits an empty negation: it returns
    [undefined] exactly when every value of the map, apart from one
    under the name [__proto__], is dropped, and otherwise
    [{NOT: where}] with a [where] of at least one key. *)
Theorem buildNotFilters_spec (notFilters : obj) :
  (buildNotFilters notFilters = None ↔
     map_Forall (fun k v => k = "__proto__" ∨ filter_clause v = None) notFilters) ∧
  (∀ o, buildNotFilters notFilters = Some o →
     o = {[ "NOT" := VObj (buildFilters notFilters) ]} ∧
     buildFilters notFilters ≠ ∅).
Proof.
  unfold buildNotFilters. cbv zeta. rewrite length_eqb_0.
  assert (Hk : Object_keys (buildFilters notFilters) = [] ↔ buildFilters notFilters = ∅).
  { unfold Object_keys. split.
    - intros H. by apply fmap_nil_inv, map_to_list_empty_iff in H.
    - intros ->. by rewrite map_to_list_empty. }
  assert (He : buildFilters notFilters = ∅ ↔
               map_Forall (fun k v => k = "__proto__" ∨ filter_clause v = None)
                 notFilters).
  { rewrite map_empty. split.
    - intros H k v E. specialize (H k).
      rewrite buildFilters_lookup, E in H.
      case_bool_decide; [by left | by right].
    - intros H k. rewrite buildFilters_lookup. case_bool_decide as Hp; [done|].
      destruct (notFilters !! k) as [v|] eqn:E; [|done].
      by destruct (H k v E). }
  case_bool_decide as Hb.
  - split; [|done]. split; [|done]. intros _. by apply He, Hk.
  - split.
    + split; [done|]. intros H. by apply He, Hk in H.
    + intros o [= <-]. split; [done|]. by rewrite <- Hk.
Qed.

Lemma buildNotFilters_spec_witness :
  buildNotFilters {[ "status" := VStr "" ; "__proto__" := VStr "x" ]} = None.
Proof.
  destruct (buildNotFilters_spec {[ "status" := VStr "" ; "__proto__" := VStr "x" ]})
    as [H _].
  apply H. apply map_Forall_insert_2; [by right|].
  apply map_Forall_singleton. by left.
Defined.

Lemma combineFilters_from (acc : obj) (l : list obj) :
  foldl (fun combined current => spread2 combined current) acc l
  = combineFilters l ∪ acc.
Proof.
  revert acc. induction l as [|o l IH]; intros acc.
  - unfold combineFilters. cbn. by rewrite (left_id_L ∅ (∪)).
  - unfold combineFilters. cbn [foldl]. rewrite (IH (spread2 acc o)), (IH (spread2 ∅ o)).
    unfold spread2. by rewrite (right_id_L ∅ (∪)), (assoc_L (∪)).
Qed.

Lemma combineFilters_singleton (o : obj) : combineFilters [o] = o.
Proof. unfold combineFilters, spread2. cbn. apply (right_id_L ∅ (∪)). Qed.

Lemma combineFilters_app_union (a b : list obj) :
  combineFilters (a ++ b) = combineFilters b ∪ combineFilters a.
Proof.
  unfold combineFilters at 1. rewrite foldl_app.
  fold (combineFilters a). apply combineFilters_from.
Qed.

(** [combineFilters] composes: combining a list in two parts and then
    merging, the later part over the earlier, is combining the whole
    list; objects without keys make no difference. *)
Theorem combineFilters_app (l1 l2 : list obj) :
  combineFilters (l1 ++ l2) = combineFilters [combineFilters l1; combineFilters l2] ∧
  combineFilters (l1 ++ l2) = combineFilters l2 ∪ combineFilters l1 ∧
  combineFilters (l1 ++ ∅ :: l2) = combineFilters (l1 ++ l2).
Proof.
  pose proof combineFilters_app_union as H.
  pose proof combineFilters_singleton as H1.
  split; [|split].
  - rewrite H. change [combineFilters l1; combineFilters l2]
      with ([combineFilters l1] ++ [combineFilters l2])%list.
    by rewrite H, !H1.
  - apply H.
  - rewrite !H. change (∅ :: l2) with ([∅] ++ l2)%list.
    by rewrite H, H1, (right_id_L ∅ (∪)).
Qed.

(** In [combineFilters] the last writer wins, key by key: a key has the
    value of the last object that has it, and is absent when no object
    has it. *)
Theorem combineFilters_last_wins (l : list obj) (k : string) :
  (∀ v, combineFilters l !! k = Some v ↔
        ∃ l1 (o : obj) l2, l = (l1 ++ o :: l2)%list ∧ o !! k = Some v ∧
                   Forall (fun o' : obj => o' !! k = None) l2) ∧
  (combineFilters l !! k = None ↔ Forall (fun o : obj => o !! k = None) l).
Proof.
  assert (Hsnoc : ∀ (a : list obj) (o : obj),
            combineFilters (a ++ [o]) !! k =
            match o !! k with Some v => Some v | None => combineFilters a !! k end).
  { intros a o. rewrite combineFilters_app_union, combineFilters_singleton.
    rewrite lookup_union. by destruct (o !! k), (combineFilters a !! k). }
  induction l as [|o l [IH1 IH2]] using rev_ind.
  - split.
    + intros v. split; [done|]. intros (l1 & o & l2 & H & _). by destruct l1.
    + split; [by constructor | done].
  - split.
    + intros v. rewrite Hsnoc. destruct (o !! k) as [w|] eqn:E.
      * split.
        -- intros [= ->]. exists l, o, []. by repeat split.
        -- intros (l1 & o' & l2 & Hl & Ho & Hf).
           destruct l2 as [|x l2 _] using rev_ind.
           ++ apply app_inj_tail in Hl as [_ ->]. congruence.
           ++ rewrite app_comm_cons, app_assoc in Hl.
              apply app_inj_tail in Hl as [_ ->].
              apply Forall_app in Hf as [_ Hf]. inversion Hf; congruence.
      * rewrite IH1. split.
        -- intros (l1 & o' & l2 & -> & Ho & Hf).
           exists l1, o', (l2 ++ [o])%list. split; [by rewrite <- app_assoc|].
           split; [done|]. apply Forall_app. by split; [|constructor].
        -- intros (l1 & o' & l2 & Hl & Ho & Hf).
           destruct l2 as [|x l2 _] using rev_ind.
           ++ apply app_inj_tail in Hl as [_ ->]. congruence.
           ++ rewrite app_comm_cons, app_assoc in Hl.
              apply app_inj_tail in Hl as [-> ->].
              apply Forall_app in Hf as [Hf _]. by exists l1, o', l2.
    + rewrite Hsnoc, Forall_app, Forall_singleton.
      destruct (o !! k) eqn:E; [by split; [|intros [_ ?]] |].
      rewrite IH2. by intuition.
Qed.

Lemma combineFilters_last_wins_witness :
  combineFilters [ {[ "status" := VStr "A" ]}; {[ "status" := VStr "B" ]};
                   {[ "role" := VStr "X" ]} ] !! "status" = Some (VStr "B").
Proof.
  destruct (combineFilters_last_wins
    [ {[ "status" := VStr "A" ]}; {[ "status" := VStr "B" ]};
      {[ "role" := VStr "X" ]} ] "status") as [H _].
  apply H. exists [ {[ "status" := VStr "A" ]} ], {[ "status" := VStr "B" ]},
    [ {[ "role" := VStr "X" ]} ].
  split; [reflexivity|]. split; [reflexivity|].
  constructor; [reflexivity | constructor].
Defined.

(** ** filters.examples.ts *)

(** [buildRoleBasedFilters] restricts two cases only: a [GUEST] sees
    active records, a [USER] with a non-empty user id sees their own.
    Every other input gets no filter at all, as [ADMIN] does: an
    unknown or missing role, and a [USER] whose id is missing or
    empty.  What it returns goes through [buildFilters] unchanged. *)
Theorem buildRoleBasedFilters_spec (role userId : option string) :
  (role = Some "GUEST" →
   buildRoleBasedFilters role userId = {[ "isActive" := VBool true ]}) ∧
  (∀ u, role = Some "USER" → userId = Some u → u ≠ "" →
   buildRoleBasedFilters role userId = {[ "userId" := VStr u ]}) ∧
  (role ≠ Some "GUEST" →
   ¬ (role = Some "USER" ∧ ∃ u, userId = Some u ∧ u ≠ "") →
   buildRoleBasedFilters role userId = ∅) ∧
  buildFilters (buildRoleBasedFilters role userId) = buildRoleBasedFilters role userId.
Proof.
  assert (Hg : role = Some "GUEST" →
   buildRoleBasedFilters role userId = {[ "isActive" := VBool true ]}).
  { intros ->. reflexivity. }
  assert (Hu : ∀ u, role = Some "USER" → userId = Some u → u ≠ "" →
   buildRoleBasedFilters role userId = {[ "userId" := VStr u ]}).
  { intros u -> -> Hne. unfold buildRoleBasedFilters.
    cbn. by apply is_empty_string_false in Hne as ->. }
  assert (Hn : role ≠ Some "GUEST" →
   ¬ (role = Some "USER" ∧ ∃ u, userId = Some u ∧ u ≠ "") →
   buildRoleBasedFilters role userId = ∅).
  { intros H1 H2. unfold buildRoleBasedFilters. cbv zeta.
    case_bool_decide; [done|].
    rewrite (bool_decide_false (role = Some "GUEST")) by done.
    case_bool_decide as Hr; [|done].
    destruct userId as [u|]; [|done]. cbn.
    destruct (is_empty_string u) eqn:E; [done|].
    exfalso. apply H2. split; [done|]. exists u. split; [done|].
    by apply is_empty_string_false. }
  split; [done|]. split; [done|]. split; [done|].
  destruct (decide (role = Some "GUEST")) as [Hr|Hr].
  { by rewrite (Hg Hr). }
  destruct (decide (role = Some "USER")) as [Hr'|Hr'].
  - destruct userId as [u|]; [destruct (decide (u = "")) as [->|Hne]|].
    + rewrite Hn; [done|done|]. intros (_ & u & [= <-] & ?). done.
    + rewrite (Hu u) by done. apply buildFilters_of_literals; [done|].
      apply map_Forall_singleton. cbn. by apply is_empty_string_false in Hne as ->.
    + rewrite Hn; [done|done|]. by intros (_ & u & ? & _).
  - rewrite Hn; [done|done|]. by intros [? _].
Qed.

Lemma buildRoleBasedFilters_spec_witness :
  Some "USER" ≠ Some "GUEST" ∧
  buildRoleBasedFilters (Some "USER") None = ∅.
Proof.
  split; [discriminate|].
  destruct (buildRoleBasedFilters_spec (Some "USER") None) as (_ & _ & H & _).
  apply H; [discriminate|]. by intros (_ & u & ? & _).
Defined.

(** ** query-builder.ts: the offset builders *)

(** Lookups in the argument of the [findMany] call of the offset
    builders, whatever [orderBy] is. *)
Lemma offset_call_args (w : obj) (t s : number) (ob inc sel : value) (k : string) :
  spread2
    (spread2
       {[ "where" := VObj w; "take" := VNum t; "skip" := VNum s; "orderBy" := ob ]}
       (optional_prop "include" inc))
    (optional_prop "select" sel) !! k =
  if decide (k = "select") then (if truthy sel then Some sel else None)
  else if decide (k = "include") then (if truthy inc then Some inc else None)
  else if decide (k = "where") then Some (VObj w)
  else if decide (k = "take") then Some (VNum t)
  else if decide (k = "skip") then Some (VNum s)
  else if decide (k = "orderBy") then Some ob
  else None.
Proof.
  unfold spread2. rewrite !lookup_union.
  destruct (decide (k = "select")) as [->|Hs].
  { rewrite optional_prop_lookup, (optional_prop_lookup_ne "include") by done.
    by destruct (truthy sel). }
  rewrite (optional_prop_lookup_ne "select") by done.
  destruct (decide (k = "include")) as [->|Hi].
  { rewrite optional_prop_lookup. by destruct (truthy inc). }
  rewrite (optional_prop_lookup_ne "include") by done.
  rewrite !lookup_insert, lookup_singleton.
  repeat case_decide; simplify_eq; done.
Qed.

(** What [queryBuilder] does: the two calls, and the result read off
    their answers. *)
Lemma queryBuilder_run (model : Model) (args : QueryArgs) :
  let page := default (Fin 1) (page args) in
  let pg := getPagination (Some page) (Some (default (Fin 10) (limit args))) in
  let where_ := build_where args in
  let fa :=
    spread2
      (spread2
         {[ "where" := VObj where_;
            "take" := VNum (take_ pg);
            "skip" := VNum (skip_ pg);
            "orderBy" := VObj {[ default "createdAt" (sortBy args)
                                 := sortOrder_value (default desc (sortOrder args)) ]} ]}
         (optional_prop "include" (include args)))
      (optional_prop "select" (select args)) in
  let ca : obj := {[ "where" := VObj where_ ]} in
  run (queryBuilder model args) =
    ([{| call_op := OpFindMany; call_args := fa |};
      {| call_op := OpCount; call_args := ca |}],
     match outcome (Promise_all2 (findMany model fa) (count model ca)) with
     | Fulfilled (data, total) =>
         Fulfilled {| qb_data := data;
                      qb_meta := {| meta_total := total;
                                    meta_page := page;
                                    meta_limit := take_ pg;
                                    meta_totalPages := Math_ceil_div total (take_ pg) |} |}
     | Rejected e => Rejected e
     end).
Proof.
  intros page pg where_ fa ca.
  unfold run, queryBuilder. cbv zeta.
  unfold async_bind, call_findMany, call_count, await. cbn [fst snd app].
  fold page pg where_ fa ca.
  by destruct (outcome (Promise_all2 _ _)) as [[??]|?].
Qed.

Lemma advancedQueryBuilder_run (model : Model) (args : QueryArgs) :
  let page := default (Fin 1) (page args) in
  let pg := getPagination (Some page) (Some (default (Fin 10) (limit args))) in
  let where_ := build_where args in
  let sorts := default [{| field := "createdAt"; order := desc |}] (sortFields args) in
  let fa :=
    spread2
      (spread2
         {[ "where" := VObj where_;
            "take" := VNum (take_ pg);
            "skip" := VNum (skip_ pg);
            "orderBy" := VArr (map (fun sort =>
                VObj {[ field sort := sortOrder_value (order sort) ]}) sorts) ]}
         (optional_prop "include" (include args)))
      (optional_prop "select" (select args)) in
  let ca : obj := {[ "where" := VObj where_ ]} in
  run (advancedQueryBuilder model args) =
    ([{| call_op := OpFindMany; call_args := fa |};
      {| call_op := OpCount; call_args := ca |}],
     match outcome (Promise_all2 (findMany model fa) (count model ca)) with
     | Fulfilled (data, total) =>
         Fulfilled {| qb_data := data;
                      qb_meta := {| meta_total := total;
                                    meta_page := page;
                                    meta_limit := take_ pg;
                                    meta_totalPages := Math_ceil_div total (take_ pg) |} |}
     | Rejected e => Rejected e
     end).
Proof.
  intros page pg where_ sorts fa ca.
  unfold run, advancedQueryBuilder. cbv zeta.
  unfold async_bind, call_findMany, call_count, await. cbn [fst snd app].
  fold page pg where_ sorts fa ca.
  by destruct (outcome (Promise_all2 _ _)) as [[??]|?].
Qed.

(** The [findMany] call of [queryBuilder] has exactly the entries
    [where], [take] and [skip] of [getPagination], the one-field
    [orderBy] (by [createdAt], descending, unless told otherwise) and
    [include] and [select] when they are truthy; none of them can
    overwrite another, and there is no other entry. *)
Theorem queryBuilder_call_args (model : Model) (args : QueryArgs) :
  let pg := getPagination (Some (default (Fin 1) (page args)))
              (Some (default (Fin 10) (limit args))) in
  ∃ c1 c2, (run (queryBuilder model args)).1 = [c1; c2] ∧
    call_op c1 = OpFindMany ∧
    ∀ k, call_args c1 !! k =
      if decide (k = "select")
      then (if truthy (select args) then Some (select args) else None)
      else if decide (k = "include")
      then (if truthy (include args) then Some (include args) else None)
      else if decide (k = "where") then Some (VObj (build_where args))
      else if decide (k = "take") then Some (VNum (take_ pg))
      else if decide (k = "skip") then Some (VNum (skip_ pg))
      else if decide (k = "orderBy")
      then Some (VObj {[ default "createdAt" (sortBy args)
                         := sortOrder_value (default desc (sortOrder args)) ]})
      else None.
Proof.
  intros pg. rewrite queryBuilder_run. cbv zeta. cbn [fst].
  eexists _, _. split; [reflexivity|]. split; [reflexivity|].
  intros k. cbn [call_args]. apply offset_call_args.
Qed.

(** [advancedQueryBuilder] is [queryBuilder] with a list for [orderBy]:
    one [{[field]: order}] per sort field, in the order given, the
    default [[{createdAt: "desc"}]] when [sortFields] is omitted and
    the empty list when it is given empty.  Its [count] call and every
    other entry of its [findMany] call are those of [queryBuilder]. *)
Theorem advancedQueryBuilder_orderBy (model : Model) (args : QueryArgs) :
  ∃ c1 c2 d1 d2,
    (run (advancedQueryBuilder model args)).1 = [c1; c2] ∧
    (run (queryBuilder model args)).1 = [d1; d2] ∧
    c2 = d2 ∧ call_op c1 = call_op d1 ∧
    (∀ k, k ≠ "orderBy" → call_args c1 !! k = call_args d1 !! k) ∧
    call_args c1 !! "orderBy" =
      Some (VArr (map (fun sort => VObj {[ field sort := sortOrder_value (order sort) ]})
                    (default [{| field := "createdAt"; order := desc |}]
                       (sortFields args)))).
Proof.
  rewrite advancedQueryBuilder_run, queryBuilder_run. cbv zeta. cbn [fst].
  eexists _, _, _, _. split; [reflexivity|]. split; [reflexivity|].
  split; [reflexivity|]. split; [reflexivity|]. cbn [call_args]. split.
  - intros k Hk. rewrite !offset_call_args.
    repeat case_decide; done.
  - by rewrite offset_call_args.
Qed.

(** [countQuery] counts what [queryBuilder] reports: whenever
    [queryBuilder] succeeds, [countQuery] on the same options succeeds
    with its [meta.total], having made the same [count] call. *)
Theorem countQuery_matches_total (model : Model) (args : QueryArgs)
    (r : QueryBuilderResponse) :
  (run (queryBuilder model args)).2 = Fulfilled r →
  (run (countQuery model args)).2 = Fulfilled (meta_total (qb_meta r)) ∧
  ∃ c1 c2, (run (queryBuilder model args)).1 = [c1; c2] ∧
           (run (countQuery model args)).1 = [c2].
Proof.
  rewrite queryBuilder_run. cbv zeta. cbn [fst snd].
  unfold run, countQuery, async_bind, call_count, await. cbn [fst snd app].
  unfold Promise_all2.
  destruct (outcome (findMany model _)) as [rows|e1];
    destruct (outcome (count model _)) as [n|e2]; cbn [outcome]; try done.
  - intros [= <-]. split; [done|]. by eexists _, _.
  - by destruct (_ <=? _)%nat.
Qed.

Lemma countQuery_matches_total_witness :
  (run (countQuery three_row_model john_args)).2 = Fulfilled (Fin 3).
Proof.
  destruct (countQuery_matches_total three_row_model john_args
    {| qb_data := [ {[ "id" := VStr "a" ]}; {[ "id" := VStr "b" ]};
                    {[ "id" := VStr "c" ]} ];
       qb_meta := {| meta_total := Fin 3; meta_page := Fin 2;
                     meta_limit := Fin 10; meta_totalPages := Fin 1 |} |})
    as [H _]; [reflexivity|].
  exact H.
Defined.

(** The envelope of [queryBuilder] is consistent: for a limit other
    than [NaN] and a total of [n >= 0] items, [meta.limit] lies in
    [1, 100], [meta.totalPages] is a count of pages between 0 and [n],
    zero exactly when there are no items, and [meta.page] is the page
    as requested, also when the query was served as page 1. *)
Theorem queryBuilder_meta (model : Model) (args : QueryArgs)
    (r : QueryBuilderResponse) (n : Z) :
  (run (queryBuilder model args)).2 = Fulfilled r →
  default (Fin 10) (limit args) ≠ NaN →
  meta_total (qb_meta r) = Fin n → 0 ≤ n →
  ∃ t pages,
    meta_limit (qb_meta r) = Fin t ∧ 1 ≤ t ≤ 100 ∧
    meta_totalPages (qb_meta r) = Fin pages ∧
    0 ≤ pages ≤ n ∧ (pages = 0 ↔ n = 0) ∧
    meta_page (qb_meta r) = default (Fin 1) (page args).
Proof.
  rewrite queryBuilder_run. cbv zeta. cbn [snd].
  set (tk := take_ (getPagination (Some (default (Fin 1) (page args)))
                      (Some (default (Fin 10) (limit args))))).
  intros Hr Hl Hn Hpos.
  assert (Ht : tk = Fin (clamp_limit (default (Fin 10) (limit args))))
    by (by apply clamp_take).
  pose proof (clamp_limit_range _ Hl) as Hrange.
  destruct (outcome (Promise_all2 _ _)) as [[data total]|e]; [|done].
  injection Hr as <-.
  cbn [qb_meta meta_total meta_limit meta_totalPages meta_page] in *.
  subst total. rewrite Ht.
  destruct (Math_ceil_div_ceiling n (clamp_limit (default (Fin 10) (limit args))))
    as (P & HP & H1 & H2); [lia|].
  exists (clamp_limit (default (Fin 10) (limit args))), P.
  split; [done|]. split; [done|]. split; [done|].
  split; [nia|]. split; [|done]. split; intros ?; nia.
Qed.

Lemma queryBuilder_meta_witness :
  ∃ t pages,
    Fin 10 = Fin t ∧ 1 ≤ t ≤ 100 ∧ Fin 1 = Fin pages ∧
    0 ≤ pages ≤ 3 ∧ (pages = 0 ↔ 3 = 0) ∧ Fin 2 = default (Fin 1) (page john_args).
Proof.
  apply (queryBuilder_meta three_row_model john_args
    {| qb_data := [ {[ "id" := VStr "a" ]}; {[ "id" := VStr "b" ]};
                    {[ "id" := VStr "c" ]} ];
       qb_meta := {| meta_total := Fin 3; meta_page := Fin 2;
                     meta_limit := Fin 10; meta_totalPages := Fin 1 |} |} 3);
    [reflexivity | discriminate | reflexivity | lia].
Defined.

(** [aggregateQuery] makes one [aggregate] call and returns its answer
    as it is.  The call carries every entry of [aggregations] and,
    under [where], the assembled condition, unless [aggregations]
    has a [where] of its own, which then replaces it. *)
Theorem aggregateQuery_call (model : Model) (args : QueryArgs) :
  ∃ c, run (aggregateQuery model args) = ([c], outcome (aggregate model (call_args c))) ∧
       call_op c = OpAggregate ∧
       (∀ k, call_args c !! k =
             match aggregations args !! k with
             | Some v => Some v
             | None => if decide (k = "where")
                       then Some (VObj (build_where args)) else None
             end).
Proof.
  unfold run, aggregateQuery. cbv zeta.
  unfold async_bind, call_aggregate, await. cbn [fst snd app].
  exists {| call_op := OpAggregate;
            call_args := spread2 {[ "where" := VObj (build_where args) ]}
                           (aggregations args) |}.
  split; [reflexivity|]. split; [reflexivity|].
  intros k. cbn [call_args]. unfold spread2.
  destruct (aggregations args !! k) as [v|] eqn:E.
  - by apply lookup_union_Some_l.
  - rewrite lookup_union_r by done.
    rewrite lookup_singleton. by repeat case_decide.
Qed.

(** ** The two copies of query-builder.ts *)

Lemma Legacy_build_where (args : QueryArgs) :
  relationFilters args = None ∨ relationFilters args = Some ∅ →
  Legacy.build_where args = build_where args.
Proof.
  intros Hr. unfold Legacy.build_where, build_where. cbv zeta.
  assert (buildRelationFilters (default ∅ (relationFilters args)) = ∅) as ->.
  { destruct Hr as [-> | ->]; reflexivity. }
  unfold combineFilters, spread2. cbn [foldl].
  by rewrite (left_id_L ∅ (∪)).
Qed.

(** The older orchestrators are the newer ones without relation
    filters: when [relationFilters] is omitted or empty,
    [queryBuilder], [advancedQueryBuilder], [countQuery] and
    [aggregateQuery] of the two copies make the same calls and give the
    same result. *)
Theorem Legacy_same_without_relationFilters (model : Model) (args : QueryArgs) :
  relationFilters args = None ∨ relationFilters args = Some ∅ →
  Legacy.queryBuilder model args = queryBuilder model args ∧
  Legacy.advancedQueryBuilder model args = advancedQueryBuilder model args ∧
  Legacy.countQuery model args = countQuery model args ∧
  Legacy.aggregateQuery model args = aggregateQuery model args.
Proof.
  intros Hr. pose proof (Legacy_build_where args Hr) as Hw.
  unfold Legacy.queryBuilder, queryBuilder, Legacy.advancedQueryBuilder,
    advancedQueryBuilder, Legacy.countQuery, countQuery,
    Legacy.aggregateQuery, aggregateQuery.
  cbv zeta. by rewrite Hw.
Qed.

Lemma Legacy_same_without_relationFilters_witness :
  relationFilters john_args = None ∧
  run (Legacy.queryBuilder three_row_model john_args)
  = run (queryBuilder three_row_model john_args).
Proof.
  split; [reflexivity|].
  destruct (Legacy_same_without_relationFilters three_row_model john_args)
    as [-> _]; [by left | reflexivity].
Defined.

(** ** filters.ts: the range builders *)

(** The range builders read back: [gte] of a numeric range is its
    [from] and [lte] its [to], a bound being left out only when it is
    [undefined] ([null] and [0] are kept); in a date range a falsy
    bound is left out and any other is made a date.  Neither builder
    gives another key. *)
Theorem range_filters_read_back (range : obj) :
  get_prop "gte" (buildNumberRangeFilter (VObj range)) = obj_get range "from" ∧
  get_prop "lte" (buildNumberRangeFilter (VObj range)) = obj_get range "to" ∧
  get_prop "gte" (buildDateRangeFilter (VObj range))
  = (if truthy (obj_get range "from") then newDate (obj_get range "from")
     else VUndefined) ∧
  get_prop "lte" (buildDateRangeFilter (VObj range))
  = (if truthy (obj_get range "to") then newDate (obj_get range "to")
     else VUndefined) ∧
  (∀ k, k ≠ "gte" → k ≠ "lte" →
        get_prop k (buildNumberRangeFilter (VObj range)) = VUndefined ∧
        get_prop k (buildDateRangeFilter (VObj range)) = VUndefined).
Proof.
  rewrite buildNumberRangeFilter_range, buildDateRangeFilter_range.
  unfold number_range, date_range, bound. cbn [get_prop].
  set (from := obj_get range "from"). set (to := obj_get range "to").
  repeat split.
  - rewrite lookup_union. destruct (is_undefined from) eqn:Ef, (is_undefined to);
      cbn [negb]; rewrite ?lookup_singleton_eq, ?lookup_empty,
        ?lookup_singleton_ne by done; cbn; by destruct from.
  - rewrite lookup_union. destruct (is_undefined from), (is_undefined to) eqn:Et;
      cbn [negb]; rewrite ?lookup_singleton_eq, ?lookup_empty,
        ?lookup_singleton_ne by done; cbn; by destruct to.
  - rewrite lookup_union. destruct (truthy from), (truthy to);
      rewrite ?lookup_singleton_eq, ?lookup_empty,
        ?lookup_singleton_ne by done; done.
  - rewrite lookup_union. destruct (truthy from), (truthy to);
      rewrite ?lookup_singleton_eq, ?lookup_empty,
        ?lookup_singleton_ne by done; done.
  - by apply range_has_no_bounds_left.
  - by apply range_has_no_bounds_left.
Qed.
Lemma lookup_union_first (m1 m2 : obj) (k : string) :
  (m1 ∪ m2) !! k = match m1 !! k with Some v => Some v | None => m2 !! k end.
Proof. rewrite lookup_union. by destruct (m1 !! k), (m2 !! k). Qed.

Lemma cursor_call_args (w cp : obj) (ob inc sel : value) (k : string) :
  spread2
    (spread2
       (spread2 (spread2 {[ "where" := VObj w ]} cp) {[ "orderBy" := ob ]})
       (optional_prop "include" inc))
    (optional_prop "select" sel) !! k =
  if bool_decide (k = "select") && truthy sel then Some sel
  else if bool_decide (k = "include") && truthy inc then Some inc
  else if bool_decide (k = "orderBy") then Some ob
  else match cp !! k with
       | Some v => Some v
       | None => if bool_decide (k = "where") then Some (VObj w) else None
       end.
Proof.
  assert (Ho : ∀ name v, optional_prop name v !! k =
                 if bool_decide (k = name) && truthy v then Some v else None).
  { intros name v. destruct (decide (k = name)) as [->|E].
    - rewrite bool_decide_true by done. apply optional_prop_lookup.
    - rewrite bool_decide_false by done. by apply optional_prop_lookup_ne. }
  unfold spread2. rewrite !lookup_union_first, !Ho, !lookup_singleton.
  destruct (bool_decide (k = "select") && truthy sel); [done|].
  destruct (bool_decide (k = "include") && truthy inc); [done|].
  destruct (decide (k = "orderBy")) as [->|Hk].
  { by rewrite bool_decide_true, decide_True by done. }
  rewrite (bool_decide_false (k = "orderBy")),
    (decide_False (P := "orderBy" = k)) by done.
  destruct (cp !! k); [done|].
  destruct (decide (k = "where")) as [->|Hk'].
  - by rewrite bool_decide_true, decide_True by done.
  - by rewrite bool_decide_false, decide_False by done.
Qed.

Lemma cursorQueryBuilder_log
    (Date_toString : value -> string) (model : Model) (args : QueryArgs) :
  let cf := default "id" (cursorField args) in
  let eff := string_or (sortBy args) cf in
  let o := sortOrder_value (default desc (sortOrder args)) in
  (run (cursorQueryBuilder Date_toString model args)).1 =
    [{| call_op := OpFindMany;
        call_args :=
          spread2
            (spread2
               (spread2
                  (spread2 {[ "where" := VObj (build_where args) ]}
                     (getCursorPagination (cursor args) (Some cf)
                        (Some (default (Fin 10) (limit args)))))
                  {[ "orderBy" :=
                       if String.eqb eff cf then VObj {[ eff := o ]}
                       else VArr [VObj {[ eff := o ]}; VObj {[ cf := o ]}] ]})
               (optional_prop "include" (include args)))
            (optional_prop "select" (select args)) |}].
Proof.
  intros cf eff o. unfold run, cursorQueryBuilder. cbv zeta.
  unfold async_bind, call_findMany, await. cbn [fst snd app].
  by destruct (outcome (findMany model _)).
Qed.

Lemma Legacy_cursorQueryBuilder_log
    (Date_toString : value -> string) (model : Model) (args : QueryArgs) :
  (run (Legacy.cursorQueryBuilder Date_toString model args)).1 =
    [{| call_op := OpFindMany;
        call_args :=
          spread2
            (spread2
               (spread2
                  (spread2 {[ "where" := VObj (Legacy.build_where args) ]}
                     (getCursorPagination (cursor args) None
                        (Some (default (Fin 10) (limit args)))))
                  {[ "orderBy" :=
                       VObj {[ default "createdAt" (sortBy args)
                               := sortOrder_value (default desc (sortOrder args)) ]} ]})
               (optional_prop "include" (include args)))
            (optional_prop "select" (select args)) |}].
Proof.
  unfold run, Legacy.cursorQueryBuilder. cbv zeta.
  unfold async_bind, call_findMany, await. cbn [fst snd app].
  by destruct (outcome (findMany model _)).
Qed.

(** The cursor builders of the two copies differ in the ordering alone.
    The older one always sorts by the single field [sortBy]
    ([createdAt] by default) and pages on [id]; with no relation
    filters and no [cursorField] it makes the call of the newer one
    except for [orderBy], and the two coincide when [sortBy] is [id]. *)
Theorem Legacy_cursorQueryBuilder_orderBy
    (Date_toString : value -> string) (model : Model) (args : QueryArgs) :
  (relationFilters args = None ∨ relationFilters args = Some ∅) →
  cursorField args = None →
  (∃ c d,
     (run (Legacy.cursorQueryBuilder Date_toString model args)).1 = [c] ∧
     (run (cursorQueryBuilder Date_toString model args)).1 = [d] ∧
     call_op c = call_op d ∧
     (∀ k, k ≠ "orderBy" → call_args c !! k = call_args d !! k) ∧
     call_args c !! "orderBy" =
       Some (VObj {[ default "createdAt" (sortBy args)
                     := sortOrder_value (default desc (sortOrder args)) ]})) ∧
  (sortBy args = Some "id" →
   Legacy.cursorQueryBuilder Date_toString model args
   = cursorQueryBuilder Date_toString model args).
Proof.
  intros Hr Hc. pose proof (Legacy_build_where args Hr) as Hw.
  split.
  - rewrite Legacy_cursorQueryBuilder_log, cursorQueryBuilder_log.
    cbv zeta. rewrite Hw, Hc. cbn [default from_option id].
    change (getCursorPagination (cursor args) (Some "id"))
      with (getCursorPagination (cursor args) None).
    eexists _, _. split; [reflexivity|]. split; [reflexivity|].
    cbn [call_op call_args]. split; [reflexivity|]. split.
    + intros k Hk. rewrite !cursor_call_args.
      by rewrite (bool_decide_false (k = "orderBy")) by done.
    + by rewrite cursor_call_args.
  - intros Hs. unfold Legacy.cursorQueryBuilder, cursorQueryBuilder. cbv zeta.
    rewrite Hw, Hc, Hs. reflexivity.
Qed.

Lemma Legacy_cursorQueryBuilder_orderBy_witness :
  ∃ c, (run (Legacy.cursorQueryBuilder iso_date three_row_model live_args)).1 = [c] ∧
       call_args c !! "orderBy" = Some (VObj {[ "createdAt" := VStr "desc" ]}).
Proof.
  destruct (Legacy_cursorQueryBuilder_orderBy iso_date three_row_model live_args)
    as [(c & d & Hc & _ & _ & _ & Ho) _]; [by left | reflexivity |].
  exists c. split; [exact Hc | exact Ho].
Defined.

